(** * JS-CAD: the JSCAD execution and mesh-compilation pipeline

    A shallow embedding of [src/utils/jscadExecutor.ts] ([executeJSCAD],
    [convertToThreeGeometry], [createFallbackGeometry]) and of the [loadModel]
    effect of [src/components/ModelViewer.tsx], followed by the rest of the
    viewer ([ModelMesh] and what the component returns), the configuration,
    dispatch and code extraction of [src/services/llmService.ts], and the
    texts of [src/components/ProviderStatus.tsx]. The network, the canned
    answers of the simulation mode and the string built-ins [trim] and
    [toLowerCase] are parameters of the service.

    Conventions of the embedding.
    - JavaScript numbers are IEEE-754 binary64 values: Rocq's primitive
      [float]. Array lengths, loop counters and vertex indices are natural
      numbers; the one place where the source divides a length ([length / 3])
      is computed in [Q], so no rounding is introduced by the model.
    - A [try]/[throw] is the error monad [result]; a rejected promise of the
      [async] function is a [Throw], a fulfilled one a [Return].
    - A mutable array filled by [push] is a list extended at its end; the
      arrays and the running [vertexIndex] of the compiler are one record
      threaded through the two loops.
    - [console.log]/[warn]/[error] only write to the log and are left out.
    - The program text handed to [new Function] is represented by what it
      does: a function from the [require] capability to the state it leaves
      in [module.exports] and [exports], or to the exception it raises. *)

From Stdlib Require Import List ZArith QArith String Ascii Bool Arith Lia.
From Stdlib Require Import PrimFloat FloatOps SpecFloat.
Import ListNotations.

Set Implicit Arguments.
Close Scope Q_scope.
Set Warnings "-register-all".

(* ------------------------------------------------------------------ *)
(** ** Exceptions and the error monad *)

Module Js.

(** What a [throw] carries. The source only ever builds plain [Error]
    objects, told apart by their message; the engine raises [TypeError]s;
    an evaluated program may throw anything. *)
Inductive error : Type :=
| Error (message : string)       (* new Error(message) *)
| TypeError (message : string)   (* raised by the engine *)
| ThrownValue.                   (* a thrown value that is no Error instance *)

Inductive result (A : Type) : Type :=
| Return (a : A)
| Throw (e : error).
Arguments Throw {A} e.

Definition bind {A B} (m : result A) (k : A -> result B) : result B :=
  match m with
  | Return a => k a
  | Throw e => Throw e
  end.

(** [try { body } catch (error) { handler }] *)
Definition try_catch {A} (body : result A) (handler : error -> result A)
  : result A :=
  match body with
  | Return a => Return a
  | Throw e => handler e
  end.

(** [err instanceof Error ? err.message : 'Unknown error'] *)
Definition message_of (err : error) : string :=
  match err with
  | Error m => m
  | TypeError m => m
  | ThrownValue => "Unknown error"
  end.

(** [for (let i = lo; i < hi; i++) body], the loop state threaded. *)
Fixpoint for_loop {S : Type} (count i : nat)
         (body : nat -> S -> result S) (s : S) : result S :=
  match count with
  | O => Return s
  | Datatypes.S count' => bind (body i s) (for_loop count' (Datatypes.S i) body)
  end.

Definition for_range {S : Type} (lo hi : nat)
           (body : nat -> S -> result S) (s : S) : result S :=
  for_loop (hi - lo) lo body s.

(** [for (const x of xs) body] *)
Fixpoint for_of {A S : Type} (xs : list A)
         (body : A -> S -> result S) (s : S) : result S :=
  match xs with
  | [] => Return s
  | x :: rest => bind (body x s) (for_of rest body)
  end.

(** [s.startsWith(p)] *)
Definition startsWith (s p : string) : bool := String.prefix p s.

(** [s.split(sep)] for a one-character separator. *)
Fixpoint split (sep : ascii) (s : string) : list string :=
  match s with
  | EmptyString => [EmptyString]
  | String c rest =>
      if Ascii.eqb c sep then EmptyString :: split sep rest
      else match split sep rest with
           | [] => [String c EmptyString]
           | hd :: tl => String c hd :: tl
           end
  end.

(** [new Float32Array(xs)] stores every number rounded to binary32
    (round to nearest, ties to even; overflow to an infinity). *)
Definition fround (x : float) : float :=
  match Prim2SF x with
  | S754_finite s m e => SF2Prim (binary_round 24 128 s m e)
  | _ => x
  end.

Definition Float32Array (xs : list float) : list float := map fround xs.

End Js.

Export Js.

Declare Scope js_scope.
Delimit Scope js_scope with js.
Notation "x <- m ;; k" := (bind m (fun x => k))
(at level 61, m at next level, right associativity) : js_scope.
Open Scope js_scope.
Open Scope string_scope.
Open Scope list_scope.
Open Scope nat_scope.

(* ------------------------------------------------------------------ *)
(** ** The modelling library's geometry, and JavaScript values *)

Module Jscad.

(** A point or vector: a three-element number array, read by [v[0]],
    [v[1]], [v[2]]. *)
Record vec3 : Type := Vec3 { at0 : float; at1 : float; at2 : float }.

(** [polygon.plane], of which the compiler reads only [.normal]. *)
Record Plane : Type := { normal : option vec3 }.

(** A face of the solid: [polygon.vertices] and [polygon.plane], either of
    which may be missing. *)
Record Polygon : Type := {
  vertices : option (list vec3);
  plane : option Plane
}.

(** A polygon given by its points, carrying no plane. *)
Definition poly (pts : list vec3) : Polygon :=
  {| vertices := Some pts; plane := None |}.

(** What the sandbox and the evaluated program pass around. An object is
    the list of its properties; a function is represented by the outcome
    of calling it without arguments; a [geom3] solid by its polygons.
    Properties of primitives, functions and solids are not modelled. *)
Inductive value : Type :=
| VUndefined
| VNull
| VBoolean (b : bool)
| VNumber (x : float)
| VString (s : string)
| VObject (props : list (string * value))
| VFunction (call : result value)
| VGeom3 (polygons : list Polygon).

Fixpoint lookup (key : string) (props : list (string * value)) : value :=
  match props with
  | [] => VUndefined
  | (k, v) :: rest => if String.eqb k key then v else lookup key rest
  end.

(** [obj[key]]. Only the own data properties of plain objects are modelled:
    a name that is not among them reads as undefined, which is what the
    engine answers for every name found nowhere on the prototype chain.
    Inherited names ([constructor], [toString], a function's [name], a
    string's [length]) are outside the model. *)
Definition get (obj : value) (key : string) : result value :=
  match obj with
  | VUndefined =>
      Throw (TypeError ("Cannot read properties of undefined (reading '"
                          ++ key ++ "')"))
  | VNull =>
      Throw (TypeError ("Cannot read properties of null (reading '"
                          ++ key ++ "')"))
  | VObject props => Return (lookup key props)
  | _ => Return VUndefined
  end.

(** ToBoolean, as used by [||]. *)
Definition truthy (v : value) : bool :=
  match v with
  | VUndefined | VNull => false
  | VBoolean b => b
  | VNumber x => negb (PrimFloat.eqb x 0 || PrimFloat.is_nan x)
  | VString s => negb (String.eqb s "")
  | VObject _ | VFunction _ | VGeom3 _ => true
  end.

(** [typeof v === 'function'] *)
Definition is_function (v : value) : bool :=
  match v with
  | VFunction _ => true
  | _ => false
  end.

(** [f()] *)
Definition call (f : value) : result value :=
  match f with
  | VFunction outcome => outcome
  | _ => Throw (TypeError "mainFunc is not a function")
  end.

(** [jscad.geometries.geom3.toPolygons(geometry)]: the polygons of a
    solid; anything else has no [transforms] to read. *)
Definition toPolygons (geometry : value) : result (list Polygon) :=
  match geometry with
  | VGeom3 polygons => Return polygons
  | _ => Throw (TypeError "Cannot read properties of undefined")
  end.

End Jscad.

Export Jscad.

(* ------------------------------------------------------------------ *)
(** ** The renderer library's geometry container *)

Module Three.

(** A [BufferGeometry]: the [position] and [normal] attributes (typed arrays
    of item size 3) and the index. [setIndex] keeps an array of indices in an
    integer typed array wide enough for its largest entry, so the indices are
    kept as they are. The bounding box and sphere are derived from [position]
    by the library and are not part of the record. *)
Record BufferGeometry : Type := {
  position : option (list float);
  normal : option (list float);
  index : option (list nat)
}.

(** [new BufferGeometry()] *)
Definition newBufferGeometry : BufferGeometry :=
  {| position := None; normal := None; index := None |}.

(** [geometry.setAttribute('position', new Float32BufferAttribute(a, 3))]
    for a typed array [a], which the attribute copies. *)
Definition setPosition (a : list float) (g : BufferGeometry) : BufferGeometry :=
  {| position := Some a; normal := normal g; index := index g |}.

(** [geometry.setAttribute('normal', new Float32BufferAttribute(a, 3))] *)
Definition setNormal (a : list float) (g : BufferGeometry) : BufferGeometry :=
  {| position := position g; normal := Some a; index := index g |}.

(** [geometry.setIndex(indices)] *)
Definition setIndex (indices : list nat) (g : BufferGeometry) : BufferGeometry :=
  {| position := position g; normal := normal g; index := Some indices |}.

(** The [position] array, empty when the attribute is not set. *)
Definition positionData (g : BufferGeometry) : list float :=
  match position g with Some a => a | None => [] end.

(** The [normal] array, empty when the attribute is not set. *)
Definition normalData (g : BufferGeometry) : list float :=
  match normal g with Some a => a | None => [] end.

(** [attribute.count]: [array.length / itemSize] with item size 3. *)
Definition count (a : list float) : Q :=
  (inject_Z (Z.of_nat (List.length a)) / 3)%Q.

(** The number of vertices a geometry holds. *)
Definition vertexCount (g : BufferGeometry) : nat := List.length (positionData g) / 3.

(** [attribute.getX/Y/Z(i)] read into a vector; a read past the end of a
    typed array is [undefined], a NaN in arithmetic. *)
Definition getXYZ (a : list float) (i : nat) : vec3 :=
  Vec3 (nth (3 * i) a nan) (nth (3 * i + 1) a nan) (nth (3 * i + 2) a nan).

(** [array[k] = x] on a typed array: rounded, ignored past the end. *)
Fixpoint store (a : list float) (k : nat) (x : float) : list float :=
  match a, k with
  | [], _ => []
  | _ :: rest, O => fround x :: rest
  | y :: rest, S k' => y :: store rest k' x
  end.

(** [attribute.setXYZ(i, x, y, z)] *)
Definition setXYZ (a : list float) (i : nat) (v : vec3) : list float :=
  store (store (store a (3 * i) (at0 v)) (3 * i + 1) (at1 v)) (3 * i + 2) (at2 v).

Definition subVectors (a b : vec3) : vec3 :=
  Vec3 (at0 a - at0 b)%float (at1 a - at1 b)%float (at2 a - at2 b)%float.

Definition addVectors (a b : vec3) : vec3 :=
  Vec3 (at0 a + at0 b)%float (at1 a + at1 b)%float (at2 a + at2 b)%float.

Definition crossVectors (a b : vec3) : vec3 :=
  Vec3 (at1 a * at2 b - at2 a * at1 b)%float
       (at2 a * at0 b - at0 a * at2 b)%float
       (at0 a * at1 b - at1 a * at0 b)%float.

(** [v.length()] *)
Definition vlength (v : vec3) : float :=
  sqrt (at0 v * at0 v + at1 v * at1 v + at2 v * at2 v)%float.

(** [v.normalize()]: [divideScalar(length() || 1)], a multiplication by the
    reciprocal. *)
Definition normalize (v : vec3) : vec3 :=
  let len := vlength v in
  let scalar := (1 / (if (len =? 0) || is_nan len then 1 else len))%float in
  Vec3 (at0 v * scalar)%float (at1 v * scalar)%float (at2 v * scalar)%float.

(** The face normal the library accumulates for the triangle [(pA, pB, pC)]:
    [(pC - pB) x (pA - pB)]. *)
Definition faceCross (pA pB pC : vec3) : vec3 :=
  crossVectors (subVectors pC pB) (subVectors pA pB).

(** [computeVertexNormals], indexed case: every triangle of the index adds
    its face normal to the normals of its three vertices, so a vertex shared
    by several triangles ends up with their sum. *)
Fixpoint accumulateIndexed (pos : list float) (idx : list nat)
         (fuel : nat) (nor : list float) : list float :=
  match fuel, idx with
  | S fuel', vA :: vB :: vC :: rest =>
      let cb := faceCross (getXYZ pos vA) (getXYZ pos vB) (getXYZ pos vC) in
      let nor := setXYZ nor vA (addVectors (getXYZ nor vA) cb) in
      let nor := setXYZ nor vB (addVectors (getXYZ nor vB) cb) in
      let nor := setXYZ nor vC (addVectors (getXYZ nor vC) cb) in
      accumulateIndexed pos rest fuel' nor
  | _, _ => nor
  end.

(** [computeVertexNormals], non-indexed case ("unconnected triangle soup"):
    [for (i = 0; i < count; i += 3)] writes the face normal of the triangle
    [(i, i+1, i+2)] to exactly these three vertices. *)
Fixpoint assignSoup (pos : list float) (triangles i : nat)
         (nor : list float) : list float :=
  match triangles with
  | O => nor
  | S triangles' =>
      let cb := faceCross (getXYZ pos i) (getXYZ pos (i + 1)) (getXYZ pos (i + 2)) in
      let nor := setXYZ nor i cb in
      let nor := setXYZ nor (i + 1) cb in
      let nor := setXYZ nor (i + 2) cb in
      assignSoup pos triangles' (i + 3) nor
  end.

(** [normalizeNormals]: every stored normal is read, normalized and written
    back. *)
Fixpoint normalizeNormals (vertexes i : nat) (nor : list float) : list float :=
  match vertexes with
  | O => nor
  | S vertexes' =>
      normalizeNormals vertexes' (S i) (setXYZ nor i (normalize (getXYZ nor i)))
  end.

(** [geometry.computeVertexNormals()], after the library's
    [BufferGeometry.computeVertexNormals]: the normal attribute is created
    (or reset) to zeros, filled by the indexed or the non-indexed loop, and
    normalized. Nothing happens without a position attribute. The loop
    bounds are those of position arrays of whole triangles (a length that is
    a multiple of 9), the only ones this program builds. *)
Definition computeVertexNormals (g : BufferGeometry) : BufferGeometry :=
  match position g with
  | None => g
  | Some pos =>
      let zeros := repeat 0%float (List.length pos) in
      let summed :=
        match index g with
        | Some idx => accumulateIndexed pos idx (List.length idx) zeros
        | None => assignSoup pos ((List.length pos + 8) / 9) 0 zeros
        end in
      {| position := Some pos;
         normal := Some (normalizeNormals (List.length pos / 3) 0 summed);
         index := index g |}
  end.

End Three.

Export Three.

(* ------------------------------------------------------------------ *)
(** ** [src/utils/jscadExecutor.ts] *)

Module JscadExecutor.

(** The three messages the module raises [new Error] with. *)
Definition ModuleNotFoundError (moduleName : string) : error :=
  Error ("Module " ++ moduleName ++ " not found").

Definition EntryPointMissingError : error :=
  Error "No main function found in JSCAD code".

Definition EmptyMeshError : error :=
  Error "No valid vertices generated from JSCAD geometry".

Definition NoVerticesError : error :=
  Error "Generated geometry has no vertices".

(** *** The fallback cube *)

Definition size : float := 5%float.

Definition fallbackVertices : list float :=
  let s := size in
  let m := (- size)%float in
  Float32Array [ (* Front face *)
    m; m; s;  s; m; s;  s; s; s;
    m; m; s;  s; s; s;  m; s; s;
    (* Back face *)
    m; m; m;  m; s; m;  s; s; m;
    m; m; m;  s; s; m;  s; m; m;
    (* Top face *)
    m; s; m;  m; s; s;  s; s; s;
    m; s; m;  s; s; s;  s; s; m;
    (* Bottom face *)
    m; m; m;  s; m; m;  s; m; s;
    m; m; m;  s; m; s;  m; m; s;
    (* Right face *)
    s; m; m;  s; s; m;  s; s; s;
    s; m; m;  s; s; s;  s; m; s;
    (* Left face *)
    m; m; m;  m; m; s;  m; s; s;
    m; m; m;  m; s; s;  m; s; m ].

Definition createFallbackGeometry : BufferGeometry :=
  let geometry := newBufferGeometry in
  let geometry := setPosition fallbackVertices geometry in
  computeVertexNormals geometry.

(** *** The mesh compiler *)

(** The arrays [vertices], [normals], [indices] and the counter
    [vertexIndex] the two loops of [convertToThreeGeometry] fill. *)
Record Buffers : Type := {
  vertices : list float;
  normals : list float;
  indices : list nat;
  vertexIndex : nat
}.

Definition emptyBuffers : Buffers :=
  {| vertices := []; normals := []; indices := []; vertexIndex := 0 |}.

(** [polyVertices[i]], bound to a name whose components are read next: a
    missing element would raise a [TypeError] there. *)
Definition vertexAt (polyVertices : list vec3) (i : nat) : result vec3 :=
  match nth_error polyVertices i with
  | Some v => Return v
  | None => Throw (TypeError "Cannot read properties of undefined (reading '0')")
  end.

(** The [else] branch of the normal computation: the cross product of the
    edges from the first vertex to the second and the third, divided by its
    length when that is positive. *)
Definition computedNormal (polyVertices : list vec3) : result vec3 :=
  v1 <- vertexAt polyVertices 0 ;;
  v2 <- vertexAt polyVertices 1 ;;
  v3 <- vertexAt polyVertices 2 ;;
  let a := Vec3 (at0 v2 - at0 v1)%float (at1 v2 - at1 v1)%float (at2 v2 - at2 v1)%float in
  let b := Vec3 (at0 v3 - at0 v1)%float (at1 v3 - at1 v1)%float (at2 v3 - at2 v1)%float in
  let normal := Vec3 (at1 a * at2 b - at2 a * at1 b)%float
                     (at2 a * at0 b - at0 a * at2 b)%float
                     (at0 a * at1 b - at1 a * at0 b)%float in
  let length := sqrt (at0 normal * at0 normal + at1 normal * at1 normal
                      + at2 normal * at2 normal)%float in
  Return (if (0 <? length)%float
          then Vec3 (at0 normal / length)%float (at1 normal / length)%float
                    (at2 normal / length)%float
          else normal).

(** "Calculate normal for the polygon": the initial [[0, 0, 1]] is replaced
    by the stored plane normal when there is one, by the computed one
    otherwise. *)
Definition polygonNormal (polygon : Polygon) (polyVertices : list vec3)
  : result vec3 :=
  let normal := Vec3 0 0 1 in
  match Jscad.plane polygon with
  | Some pl =>
      match Jscad.normal pl with
      | Some n => Return n
      | None => computedNormal polyVertices
      end
  | None => computedNormal polyVertices
  end.

(** The body of the fan-triangulation loop at index [i]. *)
Definition emitTriangle (polyVertices : list vec3) (normal : vec3)
           (i : nat) (b : Buffers) : result Buffers :=
  v0 <- vertexAt polyVertices 0 ;;
  v1 <- vertexAt polyVertices i ;;
  v2 <- vertexAt polyVertices (i + 1) ;;
  Return
    {| vertices := vertices b ++ [at0 v0; at1 v0; at2 v0]
                              ++ [at0 v1; at1 v1; at2 v1]
                              ++ [at0 v2; at1 v2; at2 v2];
       normals := normals b ++ [at0 normal; at1 normal; at2 normal]
                            ++ [at0 normal; at1 normal; at2 normal]
                            ++ [at0 normal; at1 normal; at2 normal];
       indices := indices b ++ [vertexIndex b; vertexIndex b + 1; vertexIndex b + 2];
       vertexIndex := vertexIndex b + 3 |}.

(** [polygon.vertices || []] *)
Definition polyVertices (polygon : Polygon) : list vec3 :=
  match Jscad.vertices polygon with Some vs => vs | None => [] end.

(** The body of [for (const polygon of polygons)]. *)
Definition compilePolygon (polygon : Polygon) (b : Buffers) : result Buffers :=
  let polyVertices := polyVertices polygon in
  if List.length polyVertices <? 3 then Return b   (* continue *)
  else
    normal <- polygonNormal polygon polyVertices ;;
    for_range 1 (List.length polyVertices - 1)
              (emitTriangle polyVertices normal) b.

(** Both loops, from empty arrays. *)
Definition fillBuffers (polygons : list Polygon) : result Buffers :=
  for_of polygons compilePolygon emptyBuffers.

(** [(vertices.length / 3) - 1] *)
Definition maxIndex (b : Buffers) : Q :=
  (inject_Z (Z.of_nat (List.length (vertices b))) / 3 - 1)%Q.

(** [indices.filter(idx => idx <= maxIndex)] *)
Definition validIndices (b : Buffers) : list nat :=
  filter (fun idx => Qle_bool (inject_Z (Z.of_nat idx)) (maxIndex b)) (indices b).

(** Everything after the loops: the emptiness check, the index filter, the
    construction of the geometry and the final vertex-count check. *)
Definition buildGeometry (b : Buffers) : result BufferGeometry :=
  if List.length (vertices b) =? 0 then Throw EmptyMeshError
  else
    let valid := validIndices b in
    let geometry := newBufferGeometry in
    let vertexArray := Float32Array (vertices b) in
    let normalArray := Float32Array (normals b) in
    let geometry := setPosition vertexArray geometry in
    let geometry := setNormal normalArray geometry in
    let geometry :=
      if (0 <? List.length valid) && (List.length valid mod 3 =? 0)
      then setIndex valid geometry
      else geometry in
    if Qeq_bool (count (positionData geometry)) 0%Q then Throw NoVerticesError
    else Return geometry.

(** The [try] block of [convertToThreeGeometry]. *)
Definition compileMesh (jscadGeometry : value) : result BufferGeometry :=
  polygons <- toPolygons jscadGeometry ;;
  b <- fillBuffers polygons ;;
  buildGeometry b.

(** [convertToThreeGeometry]: whatever the [try] block raises is answered
    with the fallback cube. *)
Definition convertToThreeGeometry (jscadGeometry : value) : BufferGeometry :=
  match compileMesh jscadGeometry with
  | Return geometry => geometry
  | Throw _ => createFallbackGeometry
  end.

(** *** The sandbox *)

(** What an evaluated program leaves behind: the value of
    [sandbox.module.exports] (which the program may replace) and the
    properties of the [sandbox.exports] object (which it may only fill). *)
Record Sandbox : Type := {
  module_exports : value;
  exports : list (string * value)
}.

(** A program text, by its effect when run with a [require] function. *)
Definition program : Type := (string -> result value) -> result Sandbox.

Section WithLibrary.

(** [import * as jscad from '@jscad/modeling'] *)
Variable jscad : value.

(** [for (let i = 2; i < parts.length; i++) obj = obj[parts[i]]] *)
Definition walk (parts : list string) (obj : value) : result value :=
  for_range 2 (List.length parts)
            (fun i obj => get obj (nth i parts "undefined")) obj.

(** [sandbox.require] *)
Definition require (moduleName : string) : result value :=
  if String.eqb moduleName "@jscad/modeling" then Return jscad
  else if startsWith moduleName "@jscad/modeling/" then
    let parts := split "/" moduleName in
    walk parts jscad
  else Throw (ModuleNotFoundError moduleName).

(** [mainFunc = module.exports.main || exports.main] *)
Definition selectMain (sandbox : Sandbox) : result value :=
  first <- get (module_exports sandbox) "main" ;;
  if truthy first then Return first
  else get (VObject (exports sandbox)) "main".

Definition executeJSCAD (code : program) : result BufferGeometry :=
  try_catch
    (sandbox <- code require ;;
     mainFunc <- selectMain sandbox ;;
     if negb (is_function mainFunc) then Throw EntryPointMissingError
     else
       jscadGeometry <- call mainFunc ;;
       Return (convertToThreeGeometry jscadGeometry))
    (fun error => Throw error).

End WithLibrary.

End JscadExecutor.

Export JscadExecutor.

(* ------------------------------------------------------------------ *)
(** ** [src/components/ModelViewer.tsx]: the [loadModel] effect *)

Module ModelViewer.

(** The two pieces of component state [loadModel] writes. *)
Record ViewerState : Type := {
  geometry : option BufferGeometry;
  error : option string
}.

Definition loadModel (jscad : value) (code : program) (st : ViewerState)
  : ViewerState :=
  let st := {| geometry := geometry st; error := None |} in
  match executeJSCAD jscad code with
  | Return result => {| geometry := Some result; error := error st |}
  | Throw err => {| geometry := None; error := Some (message_of err) |}
  end.

(** The effect run when the [model] prop changes: without a model both
    pieces of state are cleared, with one its code is loaded. The model is
    given by its [code]. *)
Definition modelEffect (jscad : value) (model : option program)
           (st : ViewerState) : ViewerState :=
  match model with
  | None => {| geometry := None; error := None |}
  | Some code => loadModel jscad code st
  end.

(** What the component returns. *)
Inductive View : Type :=
| ErrorBox      (* the red wireframe box, 1 x 1 x 1 *)
| Placeholder   (* the grey slab, 2 x 0.1 x 2 *)
| Nothing       (* null *)
| Mesh (geometry : BufferGeometry) (wireframe transparent : bool)
       (opacity : float).

(** [geometry.attributes?.position?.count || 0] *)
Definition positionCount (g : BufferGeometry) : Q :=
  match position g with
  | Some a => if Qeq_bool (count a) 0%Q then 0%Q else count a
  | None => 0%Q
  end.

Definition ModelMesh (geometry : option BufferGeometry) : View :=
  match geometry with
  | None => Nothing
  | Some g =>
      let vertexCount := positionCount g in
      let useWireframe := negb (Qle_bool vertexCount 3000%Q) in   (* > 3000 *)
      Mesh g useWireframe useWireframe
           (if useWireframe then 0x1.999999999999ap-1%float else 1%float)
  end.

(** The component's return value for a [model] prop and the state. *)
Definition ModelViewer (model : option program) (st : ViewerState) : View :=
  let shown :=
    match error st with
    | Some message => negb (String.eqb message "")
    | None => false
    end in
  if shown then ErrorBox
  else
    match model, geometry st with
    | Some _, Some g => ModelMesh (Some g)
    | _, _ => Placeholder
    end.

End ModelViewer.

Export ModelViewer.

(* ------------------------------------------------------------------ *)
(** ** [src/services/llmService.ts] *)

Module LlmService.

(** [import.meta.env], of which the service reads seven variables. *)
Record ImportMetaEnv : Type := {
  VITE_OPENAI_API_KEY : option string;
  VITE_ANTHROPIC_API_KEY : option string;
  VITE_GOOGLE_API_KEY : option string;
  VITE_LLM_PROVIDER : option string;
  VITE_LLM_MODEL_OPENAI : option string;
  VITE_LLM_MODEL_ANTHROPIC : option string;
  VITE_LLM_MODEL_GOOGLE : option string
}.

(** [value || fallback] for an optional string: undefined and the empty
    string are falsy. *)
Definition orDefault (v : option string) (fallback : string) : string :=
  match v with
  | Some s => if String.eqb s "" then fallback else s
  | None => fallback
  end.

(** [!!value] for an optional string. *)
Definition present (v : option string) : bool :=
  match v with
  | Some s => negb (String.eqb s "")
  | None => false
  end.

Record LLMConfig : Type := {
  provider : string;
  apiKey : option string;
  model : option string
}.

Definition getApiKey (env : ImportMetaEnv) (provider : string) : option string :=
  if String.eqb provider "openai" then VITE_OPENAI_API_KEY env
  else if String.eqb provider "anthropic" then VITE_ANTHROPIC_API_KEY env
  else if String.eqb provider "google" then VITE_GOOGLE_API_KEY env
  else None.

Definition getModel (env : ImportMetaEnv) (provider : string) : string :=
  if String.eqb provider "openai"
  then orDefault (VITE_LLM_MODEL_OPENAI env) "gpt-4o-mini"
  else if String.eqb provider "anthropic"
  then orDefault (VITE_LLM_MODEL_ANTHROPIC env) "claude-3-haiku-20240307"
  else if String.eqb provider "google"
  then orDefault (VITE_LLM_MODEL_GOOGLE env) "gemini-1.5-flash"
  else "simulation".

(** The constructor: the configuration read from the environment. The
    provider variable is used as it is, whatever it says. *)
Definition newLLMService (env : ImportMetaEnv) : LLMConfig :=
  let provider := orDefault (VITE_LLM_PROVIDER env) "simulation" in
  {| provider := provider;
     apiKey := getApiKey env provider;
     model := Some (getModel env provider) |}.

Record ProviderInfo : Type := {
  info_provider : string;
  hasApiKey : bool;
  info_model : string
}.

Definition getProviderInfo (config : LLMConfig) : ProviderInfo :=
  {| info_provider := provider config;
     hasApiKey := present (apiKey config) || String.eqb (provider config) "simulation";
     info_model := orDefault (model config) "unknown" |}.

Record LLMResponse : Type := {
  code : string;
  explanation : option string
}.

(** The line feed. *)
Definition lf : string := String "010"%char EmptyString.

(** Whether [s] reads [pattern] at its start. *)
Fixpoint hasPrefix (pattern s : string) : bool :=
  match pattern, s with
  | EmptyString, _ => true
  | String a pattern', String b s' => Ascii.eqb a b && hasPrefix pattern' s'
  | String _ _, EmptyString => false
  end.

(** [s.includes(pattern)] *)
Fixpoint includes (s pattern : string) : bool :=
  hasPrefix pattern s
  || match s with
     | EmptyString => false
     | String _ rest => includes rest pattern
     end.

(** [s.substring(n)] *)
Fixpoint drop (n : nat) (s : string) : string :=
  match n, s with
  | S n', String _ rest => drop n' rest
  | _, _ => s
  end.

(** The length of the match of [/```(?:javascript|js)?\n?/] (with the
    language) or of [/```\n?/] (without) at the start of [s], if there is
    one: the fence, then greedily the language name, then a line feed. *)
Definition fenceLength (withLanguage : bool) (s : string) : option nat :=
  if hasPrefix "```" s then
    let rest := drop 3 s in
    let language :=
      if withLanguage
      then if hasPrefix "javascript" rest then 10
           else if hasPrefix "js" rest then 2 else 0
      else 0 in
    let feed := if hasPrefix lf (drop language rest) then 1 else 0 in
    Some (3 + language + feed)
  else None.

(** [s.replace(regex, '')] for a global regex matching [matchLength s]
    characters at the start of [s]: the matches are found from left to
    right and left out; [skip] counts the characters of the current match
    still to leave out. *)
Fixpoint removeAll (matchLength : string -> option nat) (skip : nat)
         (s : string) : string :=
  match s with
  | EmptyString => EmptyString
  | String c rest =>
      match skip with
      | S skip' => removeAll matchLength skip' rest
      | O =>
          match matchLength s with
          | Some (S n) => removeAll matchLength n rest
          | _ => String c (removeAll matchLength 0 rest)
          end
      end
  end.

(** The first of the two replacements of [extractCode]. *)
Definition stripFences (response : string) : string :=
  removeAll (fenceLength true) 0 response.

Section Service.

(** [String.prototype.trim] and [String.prototype.toLowerCase]. *)
Variable trim : string -> string.
Variable toLowerCase : string -> string.

(** The network: for the provider named and the configuration, the text of
    the completion the request for a prompt yields, or what the request,
    the status check or the reading of the answer raises. *)
Variable fetchCompletion : string -> LLMConfig -> string -> result string.

(** [simulateResponse], the canned answers of the simulation mode. *)
Variable simulateResponse : string -> result LLMResponse.

Definition extractCode (response : string) : string :=
  let code := removeAll (fenceLength false) 0 (stripFences response) in
  let code := trim code in
  if negb (includes code "module.exports") then
    if includes code "const main = " || includes code "function main("
    then (code ++ lf ++ lf ++ "module.exports = { main }")%string
    else code
  else code.

Definition describeModel (prompt : string) : string :=
  let lower := toLowerCase prompt in
  if includes lower "cube" || includes lower "box" then "cube"
  else if includes lower "sphere" || includes lower "ball" then "sphere"
  else if includes lower "cylinder" then "cylinder"
  else if includes lower "torus" || includes lower "donut" then "torus"
  else "3D model".

(** A template literal's rendering of [this.config.model]. *)
Definition modelText (config : LLMConfig) : string :=
  match model config with
  | Some m => m
  | None => "undefined"
  end.

(** [callOpenAI], [callAnthropic] and [callGoogle] differ in the request
    they send and in two words of their texts. *)
Definition callProvider (name label : string) (config : LLMConfig)
           (prompt : string) : result LLMResponse :=
  if negb (present (apiKey config))
  then Throw (Error (label ++ " API key not configured"))
  else
    content <- fetchCompletion name config prompt ;;
    let code := extractCode content in
    Return {| code := code;
              explanation := Some ("Generated " ++ describeModel prompt
                                     ++ " using " ++ label ++ " "
                                     ++ modelText config)%string |}.

Definition callOpenAI : LLMConfig -> string -> result LLMResponse :=
  callProvider "openai" "OpenAI".

Definition callAnthropic : LLMConfig -> string -> result LLMResponse :=
  callProvider "anthropic" "Anthropic".

Definition callGoogle : LLMConfig -> string -> result LLMResponse :=
  callProvider "google" "Google".

Definition generateModel (config : LLMConfig) (prompt : string)
  : result LLMResponse :=
  try_catch
    (if String.eqb (provider config) "openai" then callOpenAI config prompt
     else if String.eqb (provider config) "anthropic" then callAnthropic config prompt
     else if String.eqb (provider config) "google" then callGoogle config prompt
     else simulateResponse prompt)
    (fun error => simulateResponse prompt).

End Service.

End LlmService.

(* ------------------------------------------------------------------ *)
(** ** [src/components/ProviderStatus.tsx] *)

Module ProviderStatus.

Definition getProviderName (provider : string) : string :=
  if String.eqb provider "openai" then "OpenAI"
  else if String.eqb provider "anthropic" then "Anthropic Claude"
  else if String.eqb provider "google" then "Google Gemini"
  else "Simulation".

Definition getStatusColor (provider : string) (hasApiKey : bool) : string :=
  if String.eqb provider "simulation" then "text-yellow-400"
  else if hasApiKey then "text-green-400" else "text-red-400".

Definition getStatusText (provider : string) (hasApiKey : bool) : string :=
  if String.eqb provider "simulation" then "Simulation Mode"
  else if hasApiKey then "Connected" else "API Key Missing".

(** [!hasApiKey && provider !== 'simulation']: whether the settings icon is
    drawn. *)
Definition showsSettings (provider : string) (hasApiKey : bool) : bool :=
  negb hasApiKey && negb (String.eqb provider "simulation").

End ProviderStatus.

(* ------------------------------------------------------------------ *)
(** ** Sample inputs *)

Module Samples.

(** The unit square in the plane z = 0, without a plane. *)
Definition quad : Polygon :=
  poly [Vec3 0 0 0; Vec3 1 0 0; Vec3 1 1 0; Vec3 0 1 0].

(** Three points on a line, without a plane. *)
Definition collinear : Polygon :=
  poly [Vec3 0 0 0; Vec3 1 0 0; Vec3 2 0 0].

(** A two-point polygon. *)
Definition segment : Polygon :=
  poly [Vec3 0 0 0; Vec3 1 0 0].

(** A small modelling namespace with two sub-namespaces. *)
Definition library : value :=
  VObject
    [ ("primitives", VObject [("square", VFunction (Return (VGeom3 [quad])))]);
      ("booleans", VObject [("union", VFunction (Return (VGeom3 [])))]) ].

(** [module.exports = {}] *)
Definition noMain : program :=
  fun _ => Return {| module_exports := VObject []; exports := [] |}.

(** [module.exports = { main: () => square }] *)
Definition squareMain : program :=
  fun _ =>
    Return {| module_exports := VObject [("main", VFunction (Return (VGeom3 [quad])))];
              exports := [] |}.

(** [module.exports.main = 1; exports.main = () => square] *)
Definition shadowedMain : program :=
  fun _ =>
    Return {| module_exports := VObject [("main", VNumber 1)];
              exports := [("main", VFunction (Return (VGeom3 [quad])))] |}.

End Samples.

(* ------------------------------------------------------------------ *)
(** ** Vocabulary of the statements *)

(** The number of triangles a geometry draws: a third of the index when
    there is one, of the vertices otherwise. *)
Definition triangleCount (g : BufferGeometry) : nat :=
  match index g with
  | Some idx => List.length idx / 3
  | None => vertexCount g / 3
  end.

(** The three coordinates [push]ed for a vertex or a normal. *)
Definition coords (v : vec3) : list float := [at0 v; at1 v; at2 v].

(** An element to read lists with where the index is known to be in range. *)
Definition origin : vec3 := Vec3 0 0 0.

(** The nine floats of the fan triangle (point 0, point i, point i+1). *)
Definition fanTriangle (pv : list vec3) (i : nat) : list float :=
  coords (nth 0 pv origin) ++ coords (nth i pv origin) ++ coords (nth (i + 1) pv origin).

(** The buffers [b] after [count] more triangles with positions [tris] and
    the face normal [n]. *)
Definition grow (b : Buffers) (tris : list float) (n : vec3) (count : nat)
  : Buffers :=
  {| vertices := vertices b ++ tris;
     normals := normals b ++ List.concat (repeat (coords n ++ coords n ++ coords n) count);
     indices := indices b ++ seq (vertexIndex b) (3 * count);
     vertexIndex := vertexIndex b + 3 * count |}.

(** The triangles a solid's polygons emit altogether. *)
Definition triangleTotal (polygons : list Polygon) : nat :=
  list_sum (map (fun p => List.length (polyVertices p) - 2) polygons).

(** Buffers holding [T] triangles: nine positions and nine normal
    components each, and the indices 0 .. 3T-1 in order. *)
Definition wellFormed (b : Buffers) (T : nat) : Prop :=
  List.length (vertices b) = 9 * T
  /\ List.length (normals b) = 9 * T
  /\ indices b = seq 0 (3 * T)
  /\ vertexIndex b = 3 * T.


(** [module.exports = { main: () => solid }] for a solid with the given
    polygons. *)
Definition returning (polygons : list Polygon) : program :=
  fun _ =>
    Return {| module_exports := VObject [("main", VFunction (Return (VGeom3 polygons)))];
              exports := [] |}.


(** Flat normals: the three vertices of every triangle of the soup carry
    the same normal. *)
Definition flatNormals (g : BufferGeometry) : Prop :=
  Forall (fun t => getXYZ (normalData g) (3 * t) = getXYZ (normalData g) (3 * t + 1)
                   /\ getXYZ (normalData g) (3 * t) = getXYZ (normalData g) (3 * t + 2))
         (seq 0 (vertexCount g / 3)).

(** The position floats a polygon contributes: its fan, in order. *)
Definition polygonPositions (p : Polygon) : list float :=
  flat_map (fanTriangle (polyVertices p))
           (seq 1 (List.length (polyVertices p) - 2)).

(** The nine normal floats of one triangle with the face normal [n]. *)
Definition flatTriangle (n : vec3) : list float :=
  coords n ++ coords n ++ coords n.

(** The normals of the triangles a polygon contributes, one per triangle. *)
Definition polygonTriangleNormals (p : Polygon) : list vec3 :=
  match polygonNormal p (polyVertices p) with
  | Return n => repeat n (List.length (polyVertices p) - 2)
  | Throw _ => []
  end.

Definition solidPositions (polygons : list Polygon) : list float :=
  flat_map polygonPositions polygons.

Definition solidTriangleNormals (polygons : list Polygon) : list vec3 :=
  flat_map polygonTriangleNormals polygons.

(** A vector as a typed array stores it. *)
Definition roundVec (n : vec3) : vec3 :=
  Vec3 (fround (at0 n)) (fround (at1 n)) (fround (at2 n)).

(** A polygon the compiler does not skip. *)
Definition hasTriangle (p : Polygon) : bool :=
  3 <=? List.length (polyVertices p).

(** What the renderer needs of a mesh: some vertices, a normal per vertex,
    and no index or an index of whole triangles over existing vertices. *)
Definition validMesh (g : BufferGeometry) : Prop :=
  positionData g <> []
  /\ List.length (positionData g) = List.length (normalData g)
  /\ List.length (positionData g) mod 9 = 0
  /\ (index g = None
      \/ exists idx, index g = Some idx
                     /\ List.length idx mod 3 = 0
                     /\ Forall (fun i => i < vertexCount g) idx).





(** [require('fs')] as the first thing a program does. *)
Definition requiresFs : program :=
  fun require =>
    _ <- require "fs" ;;
    Return {| module_exports := VObject []; exports := [] |}.

(** [module.exports = null; exports.main = () => solid] *)
Definition nulledExports (polygons : list Polygon) : program :=
  fun _ =>
    Return {| module_exports := VNull;
              exports := [("main", VFunction (Return (VGeom3 polygons)))] |}.

(** The triangles of a value [main] may return: those of a solid's
    polygons, none for anything else. *)
Definition trianglesOf (solid : value) : nat :=
  match solid with
  | VGeom3 polygons => triangleTotal polygons
  | _ => 0
  end.

(** The backticks a string starts with. *)
Fixpoint ticks (s : string) : nat :=
  match s with
  | String c rest => if Ascii.eqb "`" c then S (ticks rest) else 0
  | EmptyString => 0
  end.

(** An environment naming the provider openai, without any key. *)
Definition keylessOpenAI : LlmService.ImportMetaEnv :=
  {| LlmService.VITE_OPENAI_API_KEY := None;
     LlmService.VITE_ANTHROPIC_API_KEY := None;
     LlmService.VITE_GOOGLE_API_KEY := None;
     LlmService.VITE_LLM_PROVIDER := Some "openai";
     LlmService.VITE_LLM_MODEL_OPENAI := None;
     LlmService.VITE_LLM_MODEL_ANTHROPIC := None;
     LlmService.VITE_LLM_MODEL_GOOGLE := None |}.

(** An environment naming a provider the service does not know. *)
Definition mistralEnv : LlmService.ImportMetaEnv :=
  {| LlmService.VITE_OPENAI_API_KEY := Some "sk-test";
     LlmService.VITE_ANTHROPIC_API_KEY := None;
     LlmService.VITE_GOOGLE_API_KEY := None;
     LlmService.VITE_LLM_PROVIDER := Some "mistral";
     LlmService.VITE_LLM_MODEL_OPENAI := None;
     LlmService.VITE_LLM_MODEL_ANTHROPIC := None;
     LlmService.VITE_LLM_MODEL_GOOGLE := None |}.

(** A network that answers every request, a simulation that echoes the
    prompt, and a [trim] that finds nothing to remove. *)
Definition answeringNetwork
  : string -> LlmService.LLMConfig -> string -> result string :=
  fun _ _ _ => Return "const main = () => []".

Definition echoSimulation : string -> result LlmService.LLMResponse :=
  fun prompt => Return {| LlmService.code := prompt; LlmService.explanation := None |}.

Definition noTrim : string -> string := fun s => s.

(** A response in a code fence that defines [main] and exports nothing. *)
Definition fencedMain : string :=
  ("```js" ++ LlmService.lf ++ "const main = () => []" ++ LlmService.lf ++ "```")%string.

(* ------------------------------------------------------------------ *)
(** ** What the two loops compute *)

Section Loops.

Lemma vertexAt_nth (pv : list vec3) (i : nat) :
  i < List.length pv -> vertexAt pv i = Return (nth i pv origin).
Proof.
  intros Hi. unfold vertexAt.
  now rewrite (nth_error_nth' pv origin Hi).
Qed.

Lemma grow_nothing (b : Buffers) (n : vec3) : grow b [] n 0 = b.
Proof.
  destruct b as [vs ns ix vi]. unfold grow. simpl.
  now rewrite !app_nil_r, Nat.add_0_r.
Qed.

Lemma emitTriangle_grow (pv : list vec3) (n : vec3) (i : nat) (b : Buffers) :
  i + 1 < List.length pv ->
  emitTriangle pv n i b = Return (grow b (fanTriangle pv i) n 1).
Proof.
  intros Hi. unfold emitTriangle.
  rewrite (@vertexAt_nth pv 0), (@vertexAt_nth pv i), (@vertexAt_nth pv (i + 1))
    by lia.
  cbn [bind]. unfold grow, fanTriangle, coords. cbn [repeat List.concat Nat.mul seq].
  rewrite !app_nil_r. change (3 * 1) with 3. cbn [seq].
  replace (vertexIndex b + 1) with (S (vertexIndex b)) by lia.
  replace (vertexIndex b + 2) with (S (S (vertexIndex b))) by lia.
  reflexivity.
Qed.

Lemma grow_grow (b : Buffers) (t1 t2 : list float) (n : vec3) (c1 c2 : nat) :
  grow (grow b t1 n c1) t2 n c2 = grow b (t1 ++ t2) n (c1 + c2).
Proof.
  unfold grow. cbn [vertices normals indices vertexIndex].
  f_equal.
  - now rewrite app_assoc.
  - rewrite repeat_app, concat_app. now rewrite <- app_assoc.
  - rewrite <- app_assoc. f_equal.
    replace (3 * (c1 + c2)) with (3 * c1 + 3 * c2) by lia.
    now rewrite seq_app.
  - lia.
Qed.

(** The fan loop run for [rounds] rounds from index [i]. *)
Lemma fan_loop (pv : list vec3) (n : vec3) :
  forall (rounds i : nat) (b : Buffers),
    i + rounds < List.length pv ->
    for_loop rounds i (emitTriangle pv n) b
    = Return (grow b (flat_map (fanTriangle pv) (seq i rounds)) n rounds).
Proof.
  induction rounds as [|rounds IH]; intros i b Hlen.
  - cbn. now rewrite grow_nothing.
  - cbn [for_loop]. rewrite emitTriangle_grow by lia. cbn [bind].
    rewrite IH by lia. rewrite grow_grow. reflexivity.
Qed.

Lemma polygonNormal_total (polygon : Polygon) (pv : list vec3) :
  3 <= List.length pv -> exists n, polygonNormal polygon pv = Return n.
Proof.
  intros Hlen.
  assert (Hc : exists n, computedNormal pv = Return n).
  { destruct pv as [|v1 [|v2 [|v3 rest]]]; cbn in Hlen; try lia.
    unfold computedNormal. cbn. eexists. reflexivity. }
  unfold polygonNormal.
  destruct (Jscad.plane polygon) as [pl|]; [destruct (Jscad.normal pl) as [n|]|];
    eauto.
Qed.

(** One polygon: the buffers grow by the fan over its points, [N - 2]
    triangles (none when [N < 3]), all with one normal; nothing is raised. *)
Lemma compilePolygon_grow (polygon : Polygon) (b : Buffers) :
  let pv := polyVertices polygon in
  exists n,
    compilePolygon polygon b
    = Return (grow b (flat_map (fanTriangle pv) (seq 1 (List.length pv - 2)))
                   n (List.length pv - 2)).
Proof.
  intros pv. unfold compilePolygon. fold pv.
  destruct (Nat.ltb_spec (List.length pv) 3) as [Hlt|Hge].
  - exists origin. replace (List.length pv - 2) with 0 by lia.
    cbn. now rewrite grow_nothing.
  - destruct (@polygonNormal_total polygon pv Hge) as [n Hn].
    exists n. rewrite Hn. cbn [bind]. unfold for_range.
    replace (List.length pv - 1 - 1) with (List.length pv - 2) by lia.
    apply fan_loop. lia.
Qed.

Lemma length_fan (pv : list vec3) (l : list nat) :
  List.length (flat_map (fanTriangle pv) l) = 9 * List.length l.
Proof.
  induction l as [|i l IH]; [reflexivity|].
  cbn [flat_map]. rewrite length_app, IH. cbn [List.length fanTriangle coords app].
  lia.
Qed.

Lemma length_flat_normals (n : vec3) (count : nat) :
  List.length (List.concat (repeat (coords n ++ coords n ++ coords n) count)) = 9 * count.
Proof.
  induction count as [|count IH]; [reflexivity|].
  cbn [repeat List.concat]. rewrite length_app, IH. cbn. lia.
Qed.

Lemma grow_wellFormed (b : Buffers) (T : nat) (tris : list float) (n : vec3)
      (count : nat) :
  wellFormed b T -> List.length tris = 9 * count ->
  wellFormed (grow b tris n count) (T + count).
Proof.
  intros (Hv & Hn & Hi & Hx) Ht. unfold wellFormed, grow.
  cbn [vertices normals indices vertexIndex].
  rewrite !length_app, length_flat_normals, Hv, Hn, Hi, Hx, Ht.
  repeat split; try lia.
  replace (3 * (T + count)) with (3 * T + 3 * count) by lia.
  now rewrite seq_app.
Qed.

Lemma triangleTotal_cons (p : Polygon) (ps : list Polygon) :
  triangleTotal (p :: ps) = List.length (polyVertices p) - 2 + triangleTotal ps.
Proof. reflexivity. Qed.

(** The outer loop from buffers holding [T] triangles: it never raises and
    ends with [T] plus the polygons' triangles. *)
Lemma for_of_wellFormed (polygons : list Polygon) :
  forall (b : Buffers) (T : nat),
    wellFormed b T ->
    exists b', for_of polygons compilePolygon b = Return b'
               /\ wellFormed b' (T + triangleTotal polygons).
Proof.
  induction polygons as [|p ps IH]; intros b T Hb.
  - exists b. cbn. now rewrite Nat.add_0_r.
  - cbn [for_of]. destruct (compilePolygon_grow p b) as [n Hp]. cbv zeta in Hp.
    rewrite Hp. cbn [bind].
    edestruct IH as (b' & Hrun & Hwf).
    { apply grow_wellFormed; [exact Hb|]. rewrite length_fan, length_seq. reflexivity. }
    exists b'. split; [exact Hrun|].
    now rewrite triangleTotal_cons, Nat.add_assoc.
Qed.

Lemma emptyBuffers_wellFormed : wellFormed emptyBuffers 0.
Proof. repeat split. Qed.

Lemma fillBuffers_wellFormed (polygons : list Polygon) :
  exists b, fillBuffers polygons = Return b
            /\ wellFormed b (triangleTotal polygons).
Proof.
  destruct (for_of_wellFormed polygons emptyBuffers_wellFormed) as (b & H1 & H2).
  exists b. split; assumption.
Qed.

End Loops.

(* ------------------------------------------------------------------ *)
(** ** What the validation after the loops computes *)

Section Validation.

Lemma triple_mod (T : nat) : (3 * T) mod 3 = 0.
Proof. rewrite Nat.mul_comm. apply Nat.Div0.mod_mul. Qed.

Lemma nine_div (T : nat) : 9 * T / 3 = 3 * T.
Proof.
  replace (9 * T) with (3 * T * 3) by lia. now rewrite Nat.div_mul by discriminate.
Qed.

(** [length / 3] is zero exactly for the empty array. *)
Lemma count_is_zero (a : list float) :
  Qeq_bool (count a) 0%Q = (List.length a =? 0).
Proof.
  destruct (Nat.eqb_spec (List.length a) 0) as [H|H];
    unfold count, Qeq_bool, Qdiv, Qmult, Qinv, inject_Z; cbn.
  - apply Z.eqb_eq. lia.
  - apply Z.eqb_neq. lia.
Qed.

(** The filter's test [idx <= length / 3 - 1], over the integers. *)
Lemma index_test (idx len : nat) :
  Qle_bool (inject_Z (Z.of_nat idx)) (inject_Z (Z.of_nat len) / 3 - 1)%Q
  = (3 * idx + 3 <=? len).
Proof.
  destruct (Nat.leb_spec (3 * idx + 3) len) as [H|H];
    unfold Qle_bool, Qminus, Qplus, Qopp, Qdiv, Qmult, Qinv, inject_Z; cbn.
  - apply Z.leb_le. lia.
  - apply Z.leb_gt. lia.
Qed.

Lemma filter_all {A : Type} (f : A -> bool) (l : list A) :
  Forall (fun x => f x = true) l -> filter f l = l.
Proof.
  induction 1 as [|x l Hx _ IH]; [reflexivity|].
  cbn. now rewrite Hx, IH.
Qed.

(** Every index of well-formed buffers is below the vertex count. *)
Lemma wellFormed_in_range (b : Buffers) (T : nat) :
  wellFormed b T ->
  Forall (fun idx => idx < List.length (vertices b) / 3) (indices b).
Proof.
  intros (Hv & _ & Hi & _). rewrite Hv, Hi, nine_div.
  apply Forall_forall. intros idx Hin. apply in_seq in Hin. lia.
Qed.

(** The index filter keeps everything. *)
Lemma wellFormed_validIndices (b : Buffers) (T : nat) :
  wellFormed b T -> validIndices b = indices b.
Proof.
  intros (Hv & _ & Hi & _). unfold validIndices, maxIndex.
  apply filter_all. rewrite Hi, Hv.
  apply Forall_forall. intros idx Hin. apply in_seq in Hin.
  rewrite index_test. apply Nat.leb_le. lia.
Qed.

(** With at least one triangle the geometry is built, with the whole index. *)
Lemma buildGeometry_indexed (b : Buffers) (T : nat) :
  wellFormed b T -> 0 < T ->
  buildGeometry b
  = Return {| position := Some (Float32Array (vertices b));
              normal := Some (Float32Array (normals b));
              index := Some (seq 0 (3 * T)) |}.
Proof.
  intros Hb HT. unfold buildGeometry.
  rewrite (wellFormed_validIndices Hb).
  destruct Hb as (Hv & _ & Hi & _).
  assert (Hne : (List.length (vertices b) =? 0) = false)
    by (apply Nat.eqb_neq; lia).
  rewrite Hne, Hi, length_seq.
  assert (Hpos : (0 <? 3 * T) = true) by (apply Nat.ltb_lt; lia).
  assert (Hmod : ((3 * T) mod 3 =? 0) = true).
  { apply Nat.eqb_eq. apply triple_mod. }
  rewrite Hpos, Hmod. cbn [andb].
  unfold setIndex, setNormal, setPosition, newBufferGeometry, positionData.
  cbn [position normal index].
  rewrite count_is_zero. unfold Float32Array. rewrite length_map, Hne.
  reflexivity.
Qed.

(** Without a triangle the emptiness check raises. *)
Lemma buildGeometry_empty (b : Buffers) :
  wellFormed b 0 -> buildGeometry b = Throw EmptyMeshError.
Proof.
  intros (Hv & _). unfold buildGeometry. now rewrite Hv.
Qed.

(** The [try] block on a solid, in closed form. *)
Lemma compileMesh_solid (polygons : list Polygon) :
  exists b,
    fillBuffers polygons = Return b
    /\ wellFormed b (triangleTotal polygons)
    /\ compileMesh (VGeom3 polygons)
       = if triangleTotal polygons =? 0 then Throw EmptyMeshError
         else Return {| position := Some (Float32Array (vertices b));
                        normal := Some (Float32Array (normals b));
                        index := Some (seq 0 (3 * triangleTotal polygons)) |}.
Proof.
  destruct (fillBuffers_wellFormed polygons) as (b & Hfill & Hwf).
  exists b. split; [exact Hfill|]. split; [exact Hwf|].
  unfold compileMesh. cbn [toPolygons bind]. rewrite Hfill. cbn [bind].
  destruct (Nat.eqb_spec (triangleTotal polygons) 0) as [H0|H0].
  - rewrite H0 in Hwf. now apply buildGeometry_empty.
  - apply buildGeometry_indexed; [exact Hwf | lia].
Qed.

(** Only a solid gets past [toPolygons]. *)
Lemma compileMesh_Return_solid (g : value) (m : BufferGeometry) :
  compileMesh g = Return m -> exists polygons, g = VGeom3 polygons.
Proof.
  destruct g; cbn; try discriminate. eauto.
Qed.

End Validation.

(* ------------------------------------------------------------------ *)
(** ** Fan triangulation of one polygon *)


(* ------------------------------------------------------------------ *)
(** ** The compiled mesh *)

(** C6: whenever the compiler's [try] block returns a mesh (for every solid,
    convex faces or not), the position and normal buffers have the same
    length, and the index buffer is absent or has a length divisible by 3
    with every entry below the vertex count. *)
Theorem compiled_mesh_invariants (g : value) (m : BufferGeometry) :
  compileMesh g = Return m ->
  List.length (positionData m) = List.length (normalData m)
  /\ (index m = None
      \/ exists idx, index m = Some idx
                     /\ List.length idx mod 3 = 0
                     /\ Forall (fun i => i < vertexCount m) idx).
Proof.
  intros Hm.
  destruct (compileMesh_Return_solid _ Hm) as [polygons ->].
  destruct (compileMesh_solid polygons) as (b & _ & (Hv & Hn & _) & Hc).
  rewrite Hc in Hm.
  destruct (triangleTotal polygons =? 0); [discriminate|].
  assert (Em : m = {| position := Some (Float32Array (vertices b));
                      normal := Some (Float32Array (normals b));
                      index := Some (seq 0 (3 * triangleTotal polygons)) |})
    by congruence.
  clear Hm Hc. subst m.
  unfold positionData, normalData, vertexCount, positionData, Float32Array.
  cbn [position normal index]. rewrite !length_map, Hv, Hn.
  split; [reflexivity|]. right. eexists. split; [reflexivity|].
  rewrite length_seq. split.
  - exact (triple_mod (triangleTotal polygons)).
  - rewrite nine_div.
    apply Forall_forall. intros i Hi. apply in_seq in Hi. lia.
Qed.

(** [compiled_mesh_invariants] at a solid of the square and the collinear
    triangle. *)
Lemma compiled_mesh_invariants_witness :
  compileMesh (VGeom3 [Samples.quad; Samples.collinear])
  = Return (convertToThreeGeometry (VGeom3 [Samples.quad; Samples.collinear]))
  /\ List.length (positionData (convertToThreeGeometry (VGeom3 [Samples.quad; Samples.collinear])))
     = List.length (normalData (convertToThreeGeometry (VGeom3 [Samples.quad; Samples.collinear]))).
Proof.
  split; [vm_compute; reflexivity|].
  apply (@compiled_mesh_invariants (VGeom3 [Samples.quad; Samples.collinear])).
  vm_compute. reflexivity.
Defined.

(** C10: whenever the compiler's [try] block returns a mesh, the solid
    emitted T > 0 triangles, the loops appended exactly the indices
    0, 1, ..., 3T-1 (3k, 3k+1, 3k+2 for the k-th triangle), each of them
    below the final vertex count 3T, the filter removed nothing, and the
    mesh carries that sequence as its index: the non-indexed branch is never
    taken. *)
Theorem index_is_sequential (g : value) (m : BufferGeometry) :
  compileMesh g = Return m ->
  exists (polygons : list Polygon) (b : Buffers),
    g = VGeom3 polygons
    /\ fillBuffers polygons = Return b
    /\ 0 < triangleTotal polygons
    /\ indices b = seq 0 (3 * triangleTotal polygons)
    /\ vertexCount m = 3 * triangleTotal polygons
    /\ Forall (fun idx => idx < vertexCount m) (indices b)
    /\ validIndices b = indices b
    /\ index m = Some (seq 0 (3 * triangleTotal polygons)).
Proof.
  intros Hm.
  destruct (compileMesh_Return_solid _ Hm) as [polygons ->].
  destruct (compileMesh_solid polygons) as (b & Hfill & Hwf & Hc).
  rewrite Hc in Hm.
  destruct (Nat.eqb_spec (triangleTotal polygons) 0) as [|HT]; [discriminate|].
  assert (Em : m = {| position := Some (Float32Array (vertices b));
                      normal := Some (Float32Array (normals b));
                      index := Some (seq 0 (3 * triangleTotal polygons)) |})
    by congruence.
  clear Hm Hc. subst m.
  exists polygons, b.
  assert (Hcount : vertexCount
                     {| position := Some (Float32Array (vertices b));
                        normal := Some (Float32Array (normals b));
                        index := Some (seq 0 (3 * triangleTotal polygons)) |}
                   = 3 * triangleTotal polygons).
  { unfold vertexCount, positionData, Float32Array. cbn [position].
    destruct Hwf as (Hv & _). rewrite length_map, Hv.
    apply nine_div. }
  assert (Hi : indices b = seq 0 (3 * triangleTotal polygons))
    by (now destruct Hwf as (_ & _ & Hi & _)).
  split; [reflexivity|]. split; [exact Hfill|]. split; [lia|].
  split; [exact Hi|]. split; [exact Hcount|]. split.
  - apply Forall_forall. intros idx Hin. rewrite Hcount.
    rewrite Hi in Hin. apply in_seq in Hin. lia.
  - split; [exact (wellFormed_validIndices Hwf) | reflexivity].
Qed.

(** [index_is_sequential] at a solid of the square, a two-point polygon and
    the collinear triangle. *)
Lemma index_is_sequential_witness :
  compileMesh (VGeom3 [Samples.quad; Samples.segment; Samples.collinear])
  = Return (convertToThreeGeometry
              (VGeom3 [Samples.quad; Samples.segment; Samples.collinear]))
  /\ exists (polygons : list Polygon) (b : Buffers),
      VGeom3 [Samples.quad; Samples.segment; Samples.collinear] = VGeom3 polygons
      /\ fillBuffers polygons = Return b
      /\ 0 < triangleTotal polygons
      /\ indices b = seq 0 (3 * triangleTotal polygons)
      /\ vertexCount (convertToThreeGeometry
                        (VGeom3 [Samples.quad; Samples.segment; Samples.collinear]))
         = 3 * triangleTotal polygons
      /\ Forall (fun idx =>
                   idx < vertexCount
                           (convertToThreeGeometry
                              (VGeom3 [Samples.quad; Samples.segment; Samples.collinear])))
                (indices b)
      /\ validIndices b = indices b
      /\ index (convertToThreeGeometry
                  (VGeom3 [Samples.quad; Samples.segment; Samples.collinear]))
         = Some (seq 0 (3 * triangleTotal polygons)).
Proof.
  split; [vm_compute; reflexivity|].
  apply (@index_is_sequential
           (VGeom3 [Samples.quad; Samples.segment; Samples.collinear])).
  vm_compute. reflexivity.
Defined.

(* ------------------------------------------------------------------ *)
(** ** Solids without a triangle *)

Lemma degenerate_triangleTotal (polygons : list Polygon) :
  Forall (fun p => List.length (polyVertices p) < 3) polygons ->
  triangleTotal polygons = 0.
Proof.
  induction 1 as [|p ps Hp _ IH]; [reflexivity|].
  rewrite triangleTotal_cons, IH. lia.
Qed.

Lemma fallback_not_empty : positionData createFallbackGeometry <> [].
Proof. vm_compute. discriminate. Qed.

(** [convertToThreeGeometry] never hands out an empty position buffer. *)
Lemma converted_not_empty (g : value) :
  positionData (convertToThreeGeometry g) <> [].
Proof.
  unfold convertToThreeGeometry.
  destruct (compileMesh g) as [m|e] eqn:Hm; [|exact fallback_not_empty].
  destruct (compileMesh_Return_solid _ Hm) as [polygons ->].
  destruct (compileMesh_solid polygons) as (b & _ & (Hv & _) & Hc).
  rewrite Hc in Hm.
  destruct (Nat.eqb_spec (triangleTotal polygons) 0) as [|HT]; [discriminate|].
  assert (Em : m = {| position := Some (Float32Array (vertices b));
                      normal := Some (Float32Array (normals b));
                      index := Some (seq 0 (3 * triangleTotal polygons)) |})
    by congruence.
  subst m. unfold positionData, Float32Array. cbn [position].
  intros Hnil. apply (f_equal (@List.length float)) in Hnil.
  rewrite length_map, Hv in Hnil. cbn in Hnil. lia.
Qed.

Lemma executeJSCAD_returning (jscad : value) (polygons : list Polygon) :
  executeJSCAD jscad (returning polygons)
  = Return (convertToThreeGeometry (VGeom3 polygons)).
Proof. reflexivity. Qed.

(** C8: for every solid with no polygon, or with only polygons of fewer
    than 3 points, the compiler's [try] block raises the empty-mesh error,
    [convertToThreeGeometry] answers with the fallback cube, and so does
    [executeJSCAD] on a program whose [main] returns that solid; the cube's
    position buffer is not empty, and no solid or other value makes
    [convertToThreeGeometry] return an empty position buffer. *)
Theorem degenerate_solid_falls_back (polygons : list Polygon) :
  Forall (fun p => List.length (polyVertices p) < 3) polygons ->
  compileMesh (VGeom3 polygons) = Throw EmptyMeshError
  /\ convertToThreeGeometry (VGeom3 polygons) = createFallbackGeometry
  /\ (forall jscad, executeJSCAD jscad (returning polygons) = Return createFallbackGeometry)
  /\ positionData createFallbackGeometry <> []
  /\ (forall g, positionData (convertToThreeGeometry g) <> []).
Proof.
  intros Hdeg.
  assert (Hthrow : compileMesh (VGeom3 polygons) = Throw EmptyMeshError).
  { destruct (compileMesh_solid polygons) as (b & _ & _ & Hc).
    now rewrite Hc, (degenerate_triangleTotal Hdeg). }
  assert (Hconv : convertToThreeGeometry (VGeom3 polygons) = createFallbackGeometry).
  { unfold convertToThreeGeometry. now rewrite Hthrow. }
  split; [exact Hthrow|]. split; [exact Hconv|]. split.
  - intros jscad. rewrite <- Hconv. apply executeJSCAD_returning.
  - split; [exact fallback_not_empty | exact converted_not_empty].
Qed.

(** [degenerate_solid_falls_back] at a solid of a two-point polygon, an
    empty polygon and a polygon without vertices. *)
Lemma degenerate_solid_falls_back_witness :
  Forall (fun p => List.length (polyVertices p) < 3)
         [Samples.segment; poly []; {| Jscad.vertices := None; plane := None |}]
  /\ convertToThreeGeometry
       (VGeom3 [Samples.segment; poly []; {| Jscad.vertices := None; plane := None |}])
     = createFallbackGeometry.
Proof.
  assert (H : Forall (fun p => List.length (polyVertices p) < 3)
                     [Samples.segment; poly [];
                      {| Jscad.vertices := None; plane := None |}])
    by (repeat constructor).
  split; [exact H|].
  exact (proj1 (proj2 (degenerate_solid_falls_back H))).
Defined.
(* ------------------------------------------------------------------ *)
(** ** The compiled unit square *)

(** C2, as stated, fails on its last clause: the index buffer compiled for
    the unit square is not [0,1,2,0,2,3]. *)
Lemma quad_index_is_not_shared :
  index (convertToThreeGeometry (VGeom3 [Samples.quad])) <> Some [0; 1; 2; 0; 2; 3].
Proof. vm_compute. discriminate. Qed.

(** C2 (amended): compiling the unit square (0,0,0),(1,0,0),(1,1,0),(0,1,0)
    without a stored plane succeeds with the face normal (0,0,1) on each of
    the six emitted vertices, exactly 2 triangles, a position buffer of 18
    floats, and the index buffer [0,1,2,3,4,5]: every triangle gets three
    vertices of its own and three consecutive indices. *)
Theorem quad_compiles_to_two_triangles :
  compileMesh (VGeom3 [Samples.quad])
  = Return {| position := Some [0; 0; 0;  1; 0; 0;  1; 1; 0;
                                0; 0; 0;  1; 1; 0;  0; 1; 0]%float;
              normal := Some [0; 0; 1;  0; 0; 1;  0; 0; 1;
                              0; 0; 1;  0; 0; 1;  0; 0; 1]%float;
              index := Some [0; 1; 2; 3; 4; 5] |}
  /\ triangleCount (convertToThreeGeometry (VGeom3 [Samples.quad])) = 2
  /\ List.length (positionData (convertToThreeGeometry (VGeom3 [Samples.quad]))) = 18
  /\ index (convertToThreeGeometry (VGeom3 [Samples.quad])) = Some [0; 1; 2; 3; 4; 5].
Proof. repeat split; vm_compute; reflexivity. Qed.

(* ------------------------------------------------------------------ *)
(** ** Collinear points *)

(** Without a stored normal the polygon's normal is the cross product of its
    first two edges, left as it is whenever its length is not positive: the
    initial [[0, 0, 1]] has been overwritten by then. *)
Lemma computedNormal_degenerate (v1 v2 v3 : vec3) (rest : list vec3) :
  let a := subVectors v2 v1 in
  let b := subVectors v3 v1 in
  (0 <? vlength (crossVectors a b))%float = false ->
  polygonNormal (poly (v1 :: v2 :: v3 :: rest)) (v1 :: v2 :: v3 :: rest)
  = Return (crossVectors a b).
Proof.
  intros a b Hlen. subst a b.
  cbv [polygonNormal computedNormal poly Jscad.plane vertexAt nth_error bind
       vlength crossVectors subVectors at0 at1 at2] in *.
  now rewrite Hlen.
Qed.

(** C4, at three collinear points (0,0,0),(1,0,0),(2,0,0) without a stored
    normal: the cross product is exactly zero, and the compiled triangle
    carries the zero vector as its normal, not (0,0,1). *)
Theorem collinear_polygon_gets_zero_normal :
  compileMesh (VGeom3 [Samples.collinear])
  = Return {| position := Some [0; 0; 0;  1; 0; 0;  2; 0; 0]%float;
              normal := Some [0; 0; 0;  0; 0; 0;  0; 0; 0]%float;
              index := Some [0; 1; 2] |}.
Proof. vm_compute. reflexivity. Qed.

(* ------------------------------------------------------------------ *)
(** ** The fallback cube *)



(* ------------------------------------------------------------------ *)
(** ** Module resolution *)

Section Require.

Variable jscad : value.

Lemma require_root : require jscad "@jscad/modeling" = Return jscad.
Proof. reflexivity. Qed.

(** An identifier that is neither the root nor under the root prefix is
    refused. *)
Lemma require_outside (moduleName : string) :
  String.eqb moduleName "@jscad/modeling" = false ->
  startsWith moduleName "@jscad/modeling/" = false ->
  require jscad moduleName = Throw (ModuleNotFoundError moduleName).
Proof.
  intros Hroot Hprefix. unfold require. now rewrite Hroot, Hprefix.
Qed.

End Require.

(** One path segment under the root prefix is one property read on the
    library object, whatever it finds. *)
Lemma require_missing (props : list (string * value)) :
  require (VObject props) "@jscad/modeling/nope"
  = Return (lookup "nope" props).
Proof. reflexivity. Qed.

(** C3, at the identifier ["@jscad/modeling/nope"]: it is under the root
    prefix and names no sub-namespace of the library, and [require] returns
    [undefined] for it instead of raising the module-not-found error it
    raises for ["fs"]; a declared sub-namespace resolves. *)
Theorem missing_namespace_resolves_to_undefined :
  require Samples.library "@jscad/modeling/nope" = Return VUndefined
  /\ require Samples.library "fs" = Throw (ModuleNotFoundError "fs")
  /\ require Samples.library "@jscad/modeling/primitives"
     = Return (lookup "primitives"
                      [ ("primitives",
                         VObject [("square", VFunction (Return (VGeom3 [Samples.quad])))]);
                        ("booleans",
                         VObject [("union", VFunction (Return (VGeom3 [])))]) ]).
Proof. repeat split. Qed.

(* ------------------------------------------------------------------ *)
(** ** The entry point *)

(** What [loadModel] does with a failed execution. *)
Lemma loadModel_on_failure (jscad : value) (code : program) (st : ViewerState)
      (e : Js.error) :
  executeJSCAD jscad code = Throw e ->
  loadModel jscad code st = {| geometry := None; error := Some (message_of e) |}.
Proof. intros H. unfold loadModel. now rewrite H. Qed.

(** C1, as stated, fails on its second half: for [module.exports = {}]
    neither [executeJSCAD] nor the viewer's [loadModel] ends with the
    fallback cube. *)
Lemma missing_main_does_not_yield_fallback :
  ~ (executeJSCAD Samples.library Samples.noMain = Return createFallbackGeometry
     \/ geometry (loadModel Samples.library Samples.noMain
                            {| geometry := None; error := None |})
        = Some createFallbackGeometry).
Proof. intros [H|H]; discriminate H. Qed.

(** C1 (amended): if the program runs to completion, [module.exports.main]
    can be read ([module.exports] is neither null nor undefined) and
    neither [module.exports.main] nor [exports.main] is callable (as for
    [module.exports = {}]), then [executeJSCAD] fails with the entry-point
    error, which its [catch] rethrows; [loadModel] catches it, records its
    message and sets the geometry to null. Neither of the two ends with the
    fallback cube. *)
Theorem missing_main_is_rethrown (jscad : value) (code : program)
        (sandbox : Sandbox) (first : value) (st : ViewerState) :
  code (require jscad) = Return sandbox ->
  get (module_exports sandbox) "main" = Return first ->
  is_function first = false ->
  is_function (lookup "main" (exports sandbox)) = false ->
  executeJSCAD jscad code = Throw EntryPointMissingError
  /\ executeJSCAD jscad code <> Return createFallbackGeometry
  /\ loadModel jscad code st
     = {| geometry := None;
          error := Some "No main function found in JSCAD code" |}
  /\ geometry (loadModel jscad code st) <> Some createFallbackGeometry.
Proof.
  intros Hrun Hfirst Hfun1 Hfun2.
  assert (Hexec : executeJSCAD jscad code = Throw EntryPointMissingError).
  { unfold executeJSCAD, selectMain. rewrite Hrun. cbn [bind].
    rewrite Hfirst. cbn [bind].
    destruct (truthy first); cbn [get bind].
    - now rewrite Hfun1.
    - now rewrite Hfun2. }
  assert (Hload : loadModel jscad code st
                  = {| geometry := None;
                       error := Some "No main function found in JSCAD code" |})
    by (now rewrite (@loadModel_on_failure jscad code st _ Hexec)).
  split; [exact Hexec|]. split; [rewrite Hexec; discriminate|].
  split; [exact Hload|]. rewrite Hload. discriminate.
Qed.

(** [missing_main_is_rethrown] at [module.exports = {}]. *)
Lemma missing_main_is_rethrown_witness :
  Samples.noMain (require Samples.library)
  = Return {| module_exports := VObject []; exports := [] |}
  /\ get (VObject []) "main" = Return VUndefined
  /\ is_function VUndefined = false
  /\ is_function (lookup "main" []) = false
  /\ executeJSCAD Samples.library Samples.noMain = Throw EntryPointMissingError
  /\ executeJSCAD Samples.library Samples.noMain <> Return createFallbackGeometry
  /\ loadModel Samples.library Samples.noMain {| geometry := None; error := None |}
     = {| geometry := None;
          error := Some "No main function found in JSCAD code" |}
  /\ geometry (loadModel Samples.library Samples.noMain
                         {| geometry := None; error := None |})
     <> Some createFallbackGeometry.
Proof.
  split; [reflexivity|]. split; [reflexivity|]. split; [reflexivity|].
  split; [reflexivity|].
  exact (@missing_main_is_rethrown Samples.library Samples.noMain
           {| module_exports := VObject []; exports := [] |} VUndefined
           {| geometry := None; error := None |}
           eq_refl eq_refl eq_refl eq_refl).
Defined.

(** C5, as stated, fails: with [module.exports.main = 1] and a callable
    [exports.main], one of the two bindings is callable and the executor
    still fails with the entry-point error. *)
Lemma callable_export_can_be_shadowed :
  is_function (lookup "main" [("main", VFunction (Return (VGeom3 [Samples.quad])))]) = true
  /\ executeJSCAD Samples.library Samples.shadowedMain = Throw EntryPointMissingError.
Proof. split; reflexivity. Qed.

(** C5 (amended): when the program has run and [module.exports.main] can be
    read, the executor looks at one value only, [module.exports.main] if
    that is truthy and [exports.main] otherwise: if it is callable it is
    called and its result converted (or its exception passed on), if not
    the executor fails with the entry-point error. *)
Theorem entry_point_selection (jscad : value) (code : program)
        (sandbox : Sandbox) (first : value) :
  code (require jscad) = Return sandbox ->
  get (module_exports sandbox) "main" = Return first ->
  executeJSCAD jscad code
  = match (if truthy first then first else lookup "main" (exports sandbox)) with
    | VFunction outcome => g <- outcome ;; Return (convertToThreeGeometry g)
    | _ => Throw EntryPointMissingError
    end.
Proof.
  intros Hrun Hfirst. unfold executeJSCAD, selectMain.
  rewrite Hrun. cbn [bind]. rewrite Hfirst. cbn [bind].
  destruct (truthy first); cbn [get bind].
  - destruct first as [| | | | | |outcome|]; try reflexivity.
    cbn [is_function negb call]. now destruct outcome.
  - destruct (lookup "main" (exports sandbox)) as [| | | | | |outcome|];
      try reflexivity.
    cbn [is_function negb call]. now destruct outcome.
Qed.

(** [entry_point_selection] at [module.exports = { main: () => square }]. *)
Lemma entry_point_selection_witness :
  Samples.squareMain (require Samples.library)
  = Return {| module_exports := VObject [("main", VFunction (Return (VGeom3 [Samples.quad])))];
              exports := [] |}
  /\ get (VObject [("main", VFunction (Return (VGeom3 [Samples.quad])))]) "main"
     = Return (VFunction (Return (VGeom3 [Samples.quad])))
  /\ executeJSCAD Samples.library Samples.squareMain
     = Return (convertToThreeGeometry (VGeom3 [Samples.quad])).
Proof.
  split; [reflexivity|]. split; [reflexivity|].
  apply (@entry_point_selection Samples.library Samples.squareMain
           {| module_exports := VObject [("main", VFunction (Return (VGeom3 [Samples.quad])))];
              exports := [] |}
           (VFunction (Return (VGeom3 [Samples.quad]))));
    reflexivity.
Defined.

(* ------------------------------------------------------------------ *)
(** ** The buffers of a solid in closed form *)

Section ClosedForm.

Lemma flat_normals_repeat (n : vec3) (c : nat) :
  List.concat (repeat (coords n ++ coords n ++ coords n) c)
  = flat_map flatTriangle (repeat n c).
Proof.
  induction c as [|c IH]; [reflexivity|].
  cbn [repeat List.concat flat_map]. now rewrite IH.
Qed.

Lemma polygonTriangleNormals_length (p : Polygon) :
  List.length (polygonTriangleNormals p) = List.length (polyVertices p) - 2.
Proof.
  unfold polygonTriangleNormals.
  destruct (Nat.ltb_spec (List.length (polyVertices p)) 3) as [Hlt|Hge].
  - replace (List.length (polyVertices p) - 2) with 0 by lia.
    now destruct (polygonNormal p (polyVertices p)).
  - destruct (@polygonNormal_total p (polyVertices p) Hge) as [n ->].
    apply repeat_length.
Qed.

(** One polygon, with the normal named. *)
Lemma compilePolygon_closed (p : Polygon) (b : Buffers) :
  exists b',
    compilePolygon p b = Return b'
    /\ vertices b' = vertices b ++ polygonPositions p
    /\ normals b' = normals b ++ flat_map flatTriangle (polygonTriangleNormals p).
Proof.
  unfold compilePolygon, polygonPositions, polygonTriangleNormals.
  destruct (Nat.ltb_spec (List.length (polyVertices p)) 3) as [Hlt|Hge].
  - exists b. replace (List.length (polyVertices p) - 2) with 0 by lia.
    split; [reflexivity|].
    destruct (polygonNormal p (polyVertices p)); cbn; now rewrite !app_nil_r.
  - destruct (@polygonNormal_total p (polyVertices p) Hge) as [n Hn].
    rewrite Hn. cbn [bind]. unfold for_range.
    replace (List.length (polyVertices p) - 1 - 1)
      with (List.length (polyVertices p) - 2) by lia.
    rewrite fan_loop by lia.
    eexists. split; [reflexivity|]. unfold grow. cbn [vertices normals].
    now rewrite flat_normals_repeat.
Qed.

Lemma for_of_closed (polygons : list Polygon) :
  forall b : Buffers,
  exists b',
    for_of polygons compilePolygon b = Return b'
    /\ vertices b' = vertices b ++ solidPositions polygons
    /\ normals b' = normals b ++ flat_map flatTriangle (solidTriangleNormals polygons).
Proof.
  induction polygons as [|p ps IH]; intros b.
  - exists b. cbn. now rewrite !app_nil_r.
  - destruct (compilePolygon_closed p b) as (b1 & Hp & Hv1 & Hn1).
    destruct (IH b1) as (b' & Hrun & Hv & Hn).
    exists b'. cbn [for_of]. rewrite Hp. cbn [bind].
    split; [exact Hrun|].
    unfold solidPositions, solidTriangleNormals in *. cbn [flat_map].
    rewrite Hv, Hv1, Hn, Hn1, flat_map_app, <- !app_assoc. now split.
Qed.

Lemma solidTriangleNormals_length (polygons : list Polygon) :
  List.length (solidTriangleNormals polygons) = triangleTotal polygons.
Proof.
  induction polygons as [|p ps IH]; [reflexivity|].
  unfold solidTriangleNormals in *. cbn [flat_map].
  now rewrite length_app, polygonTriangleNormals_length, IH, triangleTotal_cons.
Qed.

(** The outcome of the [try] block on a solid, in full. *)
Lemma compileMesh_cases (polygons : list Polygon) :
  compileMesh (VGeom3 polygons)
  = if triangleTotal polygons =? 0 then Throw EmptyMeshError
    else Return
           {| position := Some (Float32Array (solidPositions polygons));
              normal := Some (Float32Array
                                (flat_map flatTriangle (solidTriangleNormals polygons)));
              index := Some (seq 0 (3 * triangleTotal polygons)) |}.
Proof.
  destruct (compileMesh_solid polygons) as (b & Hfill & _ & Hc).
  destruct (for_of_closed polygons emptyBuffers) as (b' & Hrun & Hv & Hn).
  unfold fillBuffers in Hfill. rewrite Hfill in Hrun.
  assert (Eb : b' = b) by congruence. subst b'.
  cbn [vertices normals emptyBuffers app] in Hv, Hn.
  now rewrite Hc, Hv, Hn.
Qed.

End ClosedForm.

(** X1: a mesh the compiler's [try] block returns comes from a solid, and
    its buffers are laid out in the order of the solid's polygons: the
    positions are the fans of the polygons one after the other, the normals
    are each triangle's face normal three times, both as stored in a typed
    array. *)
Theorem compiled_buffers_follow_polygon_order (g : value) (m : BufferGeometry) :
  compileMesh g = Return m ->
  exists polygons,
    g = VGeom3 polygons
    /\ positionData m = Float32Array (solidPositions polygons)
    /\ normalData m
       = Float32Array (flat_map flatTriangle (solidTriangleNormals polygons))
    /\ List.length (solidTriangleNormals polygons) = triangleTotal polygons.
Proof.
  intros Hm.
  destruct (compileMesh_Return_solid _ Hm) as [polygons ->].
  exists polygons. split; [reflexivity|].
  rewrite compileMesh_cases in Hm.
  destruct (triangleTotal polygons =? 0); [discriminate|].
  assert (Em : m = {| position := Some (Float32Array (solidPositions polygons));
                      normal := Some (Float32Array
                                        (flat_map flatTriangle
                                                  (solidTriangleNormals polygons)));
                      index := Some (seq 0 (3 * triangleTotal polygons)) |})
    by congruence.
  subst m. repeat split. apply solidTriangleNormals_length.
Qed.

(** [compiled_buffers_follow_polygon_order] at the square followed by the
    collinear triangle. *)
Lemma compiled_buffers_follow_polygon_order_witness :
  compileMesh (VGeom3 [Samples.quad; Samples.collinear])
  = Return (convertToThreeGeometry (VGeom3 [Samples.quad; Samples.collinear]))
  /\ exists polygons,
      VGeom3 [Samples.quad; Samples.collinear] = VGeom3 polygons
      /\ positionData (convertToThreeGeometry (VGeom3 [Samples.quad; Samples.collinear]))
         = Float32Array (solidPositions polygons)
      /\ normalData (convertToThreeGeometry (VGeom3 [Samples.quad; Samples.collinear]))
         = Float32Array (flat_map flatTriangle (solidTriangleNormals polygons))
      /\ List.length (solidTriangleNormals polygons) = triangleTotal polygons.
Proof.
  split; [vm_compute; reflexivity|].
  apply (@compiled_buffers_follow_polygon_order
           (VGeom3 [Samples.quad; Samples.collinear])).
  vm_compute. reflexivity.
Defined.

(* ------------------------------------------------------------------ *)
(** ** Skipped polygons, joined solids, stored normals *)

Section Composition.

Lemma compilePolygon_skip (p : Polygon) (b : Buffers) :
  hasTriangle p = false -> compilePolygon p b = Return b.
Proof.
  unfold hasTriangle, compilePolygon. intros H.
  apply Nat.leb_gt in H. apply Nat.ltb_lt in H. now rewrite H.
Qed.

Lemma for_of_filter (polygons : list Polygon) :
  forall b : Buffers,
    for_of polygons compilePolygon b
    = for_of (filter hasTriangle polygons) compilePolygon b.
Proof.
  induction polygons as [|p ps IH]; intros b; [reflexivity|].
  cbn [filter]. destruct (hasTriangle p) eqn:Hp.
  - cbn [for_of]. destruct (compilePolygon p b) as [b1|e]; cbn [bind]; auto.
  - cbn [for_of]. rewrite (compilePolygon_skip p b Hp). cbn [bind]. apply IH.
Qed.

Lemma triangleTotal_app (ps qs : list Polygon) :
  triangleTotal (ps ++ qs) = triangleTotal ps + triangleTotal qs.
Proof.
  induction ps as [|p ps IH]; [reflexivity|].
  cbn [app]. rewrite !triangleTotal_cons, IH. lia.
Qed.

Lemma solidPositions_length (polygons : list Polygon) :
  List.length (solidPositions polygons) = 9 * triangleTotal polygons.
Proof.
  induction polygons as [|p ps IH]; [reflexivity|].
  unfold solidPositions in *. cbn [flat_map].
  rewrite length_app, IH, triangleTotal_cons.
  unfold polygonPositions. rewrite length_fan, length_seq. lia.
Qed.

End Composition.

(** X2: polygons with fewer than three points (or without a vertex list)
    have no influence on the result: the compiler's outcome on a solid is
    its outcome on the solid with these polygons removed. *)
Theorem degenerate_polygons_are_ignored (polygons : list Polygon) :
  compileMesh (VGeom3 polygons)
  = compileMesh (VGeom3 (filter hasTriangle polygons)).
Proof.
  unfold compileMesh, fillBuffers. cbn [toPolygons bind].
  now rewrite for_of_filter.
Qed.

(** X3: when two solids compile, the solid made of the polygons of the
    first followed by those of the second compiles to the first mesh's
    positions and normals followed by the second's, indexed 0 .. over the
    sum of the two vertex counts. *)
Theorem compileMesh_app (ps qs : list Polygon) (m1 m2 : BufferGeometry) :
  compileMesh (VGeom3 ps) = Return m1 ->
  compileMesh (VGeom3 qs) = Return m2 ->
  compileMesh (VGeom3 (ps ++ qs))
  = Return {| position := Some (positionData m1 ++ positionData m2);
              normal := Some (normalData m1 ++ normalData m2);
              index := Some (seq 0 (vertexCount m1 + vertexCount m2)) |}.
Proof.
  rewrite !compileMesh_cases, triangleTotal_app.
  destruct (Nat.eqb_spec (triangleTotal ps) 0) as [|H1]; [discriminate|].
  destruct (Nat.eqb_spec (triangleTotal qs) 0) as [|H2]; [discriminate|].
  intros E1 E2.
  assert (Em1 : m1 = {| position := Some (Float32Array (solidPositions ps));
                        normal := Some (Float32Array
                                          (flat_map flatTriangle (solidTriangleNormals ps)));
                        index := Some (seq 0 (3 * triangleTotal ps)) |})
    by congruence.
  assert (Em2 : m2 = {| position := Some (Float32Array (solidPositions qs));
                        normal := Some (Float32Array
                                          (flat_map flatTriangle (solidTriangleNormals qs)));
                        index := Some (seq 0 (3 * triangleTotal qs)) |})
    by congruence.
  clear E1 E2. subst m1 m2.
  destruct (Nat.eqb_spec (triangleTotal ps + triangleTotal qs) 0) as [|_]; [lia|].
  unfold vertexCount, positionData, normalData, Float32Array.
  cbn [position normal].
  rewrite !length_map, !solidPositions_length, !nine_div.
  unfold solidPositions, solidTriangleNormals.
  rewrite !flat_map_app, !map_app.
  replace (3 * (triangleTotal ps + triangleTotal qs))
    with (3 * triangleTotal ps + 3 * triangleTotal qs) by lia.
  reflexivity.
Qed.

(** [compileMesh_app] at the square followed by the collinear triangle. *)
Lemma compileMesh_app_witness :
  compileMesh (VGeom3 [Samples.quad])
  = Return (convertToThreeGeometry (VGeom3 [Samples.quad]))
  /\ compileMesh (VGeom3 [Samples.collinear])
     = Return (convertToThreeGeometry (VGeom3 [Samples.collinear]))
  /\ compileMesh (VGeom3 ([Samples.quad] ++ [Samples.collinear]))
     = Return {| position :=
                   Some (positionData (convertToThreeGeometry (VGeom3 [Samples.quad]))
                         ++ positionData (convertToThreeGeometry (VGeom3 [Samples.collinear])));
                 normal :=
                   Some (normalData (convertToThreeGeometry (VGeom3 [Samples.quad]))
                         ++ normalData (convertToThreeGeometry (VGeom3 [Samples.collinear])));
                 index :=
                   Some (seq 0 (vertexCount (convertToThreeGeometry (VGeom3 [Samples.quad]))
                                + vertexCount (convertToThreeGeometry
                                                 (VGeom3 [Samples.collinear])))) |}.
Proof.
  split; [vm_compute; reflexivity|]. split; [vm_compute; reflexivity|].
  apply (@compileMesh_app [Samples.quad] [Samples.collinear]);
    vm_compute; reflexivity.
Defined.

(** X4: a polygon that carries a plane normal gets that normal on every
    vertex of every triangle it emits, copied as stored: it is neither
    normalized nor compared with the polygon's points. *)
Theorem stored_normal_is_copied (verts : option (list vec3)) (n : vec3)
        (b : Buffers) :
  exists b',
    compilePolygon {| Jscad.vertices := verts;
                      plane := Some {| Jscad.normal := Some n |} |} b
    = Return b'
    /\ normals b'
       = normals b
         ++ flat_map flatTriangle
              (repeat n (List.length
                           (polyVertices
                              {| Jscad.vertices := verts;
                                 plane := Some {| Jscad.normal := Some n |} |}) - 2)).
Proof.
  destruct (compilePolygon_closed
              {| Jscad.vertices := verts; plane := Some {| Jscad.normal := Some n |} |} b)
    as (b' & Hrun & _ & Hn).
  exists b'. split; [exact Hrun|]. exact Hn.
Qed.

(* ------------------------------------------------------------------ *)
(** ** Flat shading of compiled meshes *)

Section Flat.

Lemma round_flat (ns : list vec3) :
  Float32Array (flat_map flatTriangle ns) = flat_map flatTriangle (map roundVec ns).
Proof.
  induction ns as [|n ns IH]; [reflexivity|].
  cbn [flat_map map]. unfold Float32Array in *. now rewrite map_app, IH.
Qed.

(** In an array of flat triangles the vertex [3t + k] carries the normal
    of triangle [t]. *)
Lemma getXYZ_flat (ns : list vec3) :
  forall t k : nat,
    t < List.length ns -> k < 3 ->
    getXYZ (flat_map flatTriangle ns) (3 * t + k) = nth t ns origin.
Proof.
  induction ns as [|n ns IH]; intros t k Ht Hk; [cbn in Ht; lia|].
  destruct t as [|t].
  - destruct n as [x y z].
    destruct k as [|[|[|k]]]; [reflexivity | reflexivity | reflexivity | lia].
  - cbn [List.length] in Ht. cbn [nth].
    rewrite <- (IH t k) by lia.
    unfold getXYZ. cbn [flat_map].
    replace (3 * (3 * S t + k)) with (9 + 3 * (3 * t + k)) by lia.
    replace (9 + 3 * (3 * t + k) + 1) with (9 + (3 * (3 * t + k) + 1)) by lia.
    replace (9 + 3 * (3 * t + k) + 2) with (9 + (3 * (3 * t + k) + 2)) by lia.
    destruct n as [x y z]. reflexivity.
Qed.

End Flat.

(** X5: every mesh the compiler's [try] block returns is flat shaded: the
    three vertices of each of its triangles carry the same normal. *)
Theorem compiled_normals_are_flat (g : value) (m : BufferGeometry) :
  compileMesh g = Return m -> flatNormals m.
Proof.
  intros Hm.
  destruct (compileMesh_Return_solid _ Hm) as [polygons ->].
  rewrite compileMesh_cases in Hm.
  destruct (triangleTotal polygons =? 0); [discriminate|].
  assert (Em : m = {| position := Some (Float32Array (solidPositions polygons));
                      normal := Some (Float32Array
                                        (flat_map flatTriangle
                                                  (solidTriangleNormals polygons)));
                      index := Some (seq 0 (3 * triangleTotal polygons)) |})
    by congruence.
  clear Hm. subst m.
  unfold flatNormals.
  assert (Hcount : vertexCount
                     {| position := Some (Float32Array (solidPositions polygons));
                        normal := Some (Float32Array
                                          (flat_map flatTriangle
                                                    (solidTriangleNormals polygons)));
                        index := Some (seq 0 (3 * triangleTotal polygons)) |} / 3
                   = triangleTotal polygons).
  { unfold vertexCount, positionData, Float32Array. cbn [position].
    rewrite length_map, solidPositions_length, nine_div, Nat.mul_comm.
    apply Nat.div_mul. discriminate. }
  rewrite Hcount. unfold normalData. cbn [normal]. rewrite round_flat.
  apply Forall_forall. intros t Ht. apply in_seq in Ht.
  assert (Hlen : t < List.length (map roundVec (solidTriangleNormals polygons)))
    by (rewrite length_map, solidTriangleNormals_length; lia).
  rewrite <- (Nat.add_0_r (3 * t)) at 1 3.
  rewrite !getXYZ_flat by (assumption || lia). split; reflexivity.
Qed.

(** [compiled_normals_are_flat] at the square with the collinear triangle. *)
Lemma compiled_normals_are_flat_witness :
  compileMesh (VGeom3 [Samples.quad; Samples.collinear])
  = Return (convertToThreeGeometry (VGeom3 [Samples.quad; Samples.collinear]))
  /\ flatNormals (convertToThreeGeometry (VGeom3 [Samples.quad; Samples.collinear])).
Proof.
  split; [vm_compute; reflexivity|].
  apply (@compiled_normals_are_flat (VGeom3 [Samples.quad; Samples.collinear])).
  vm_compute. reflexivity.
Defined.

(* ------------------------------------------------------------------ *)
(** ** What the executor hands out, and what it passes on *)

Section Executor.

Lemma length_flatTriangles (ns : list vec3) :
  List.length (flat_map flatTriangle ns) = 9 * List.length ns.
Proof.
  induction ns as [|n ns IH]; [reflexivity|].
  cbn [flat_map]. rewrite length_app, IH. cbn. lia.
Qed.

Lemma fallback_is_valid : validMesh createFallbackGeometry.
Proof.
  split; [exact fallback_not_empty|].
  split; [vm_compute; reflexivity|].
  split; [vm_compute; reflexivity|].
  left. vm_compute. reflexivity.
Qed.

(** [convertToThreeGeometry] returns a valid mesh for every value. *)
Lemma converted_is_valid (v : value) : validMesh (convertToThreeGeometry v).
Proof.
  unfold convertToThreeGeometry.
  destruct (compileMesh v) as [m|e] eqn:Hm; [|exact fallback_is_valid].
  destruct (compileMesh_Return_solid _ Hm) as [polygons ->].
  rewrite compileMesh_cases in Hm.
  destruct (Nat.eqb_spec (triangleTotal polygons) 0) as [|HT]; [discriminate|].
  assert (Em : m = {| position := Some (Float32Array (solidPositions polygons));
                      normal := Some (Float32Array
                                        (flat_map flatTriangle
                                                  (solidTriangleNormals polygons)));
                      index := Some (seq 0 (3 * triangleTotal polygons)) |})
    by congruence.
  clear Hm. subst m.
  assert (Hp : List.length (Float32Array (solidPositions polygons))
               = 9 * triangleTotal polygons)
    by (unfold Float32Array; now rewrite length_map, solidPositions_length).
  assert (Hn : List.length (Float32Array
                              (flat_map flatTriangle (solidTriangleNormals polygons)))
               = 9 * triangleTotal polygons)
    by (unfold Float32Array;
        now rewrite length_map, length_flatTriangles, solidTriangleNormals_length).
  unfold validMesh, vertexCount, positionData, normalData.
  cbn [position normal index]. rewrite Hp, Hn, nine_div.
  split.
  { intros Hnil. rewrite Hnil in Hp. cbn in Hp. lia. }
  split; [reflexivity|]. split.
  { rewrite Nat.mul_comm. apply Nat.Div0.mod_mul. }
  right. eexists. split; [reflexivity|]. rewrite length_seq. split.
  - exact (triple_mod (triangleTotal polygons)).
  - apply Forall_forall. intros i Hi. apply in_seq in Hi. lia.
Qed.

(** A fulfilled execution ran the program, found a callable [main], called
    it and converted what it returned. *)
Lemma executeJSCAD_Return (jscad : value) (code : program) (g : BufferGeometry) :
  executeJSCAD jscad code = Return g ->
  exists sandbox solid,
    code (require jscad) = Return sandbox
    /\ selectMain sandbox = Return (VFunction (Return solid))
    /\ g = convertToThreeGeometry solid.
Proof.
  unfold executeJSCAD. intros H.
  destruct (code (require jscad)) as [sandbox|e] eqn:Hrun; [|discriminate].
  cbn [bind try_catch] in H.
  destruct (selectMain sandbox) as [f|e] eqn:Hsel; [|discriminate].
  cbn [bind try_catch] in H.
  destruct f as [| | | | | |outcome|]; try discriminate.
  cbn [is_function negb call] in H.
  destruct outcome as [solid|e]; [|discriminate].
  cbn [bind try_catch] in H.
  exists sandbox, solid. split; [reflexivity|]. split; [exact Hsel|]. congruence.
Qed.

End Executor.

(** X6: every geometry [executeJSCAD] resolves with, compiled or fallback,
    is a valid mesh: its position buffer is not empty and holds whole
    triangles, the normal buffer has the same length, and the index is
    absent or made of whole triangles over existing vertices. *)
Theorem executed_geometry_is_valid (jscad : value) (code : program)
        (g : BufferGeometry) :
  executeJSCAD jscad code = Return g -> validMesh g.
Proof.
  intros H.
  destruct (executeJSCAD_Return jscad code H) as (sandbox & solid & _ & _ & ->).
  apply converted_is_valid.
Qed.

(** [executed_geometry_is_valid] at [module.exports = { main: () => square }]. *)
Lemma executed_geometry_is_valid_witness :
  executeJSCAD Samples.library Samples.squareMain
  = Return (convertToThreeGeometry (VGeom3 [Samples.quad]))
  /\ validMesh (convertToThreeGeometry (VGeom3 [Samples.quad])).
Proof.
  split; [reflexivity|].
  apply (@executed_geometry_is_valid Samples.library Samples.squareMain).
  reflexivity.
Defined.

(** X7: an exception raised while the program is evaluated, or by its
    [main] when that is called, leaves [executeJSCAD] unchanged, and
    [loadModel] shows its message and no geometry: nothing is replaced by
    the fallback cube. *)
Theorem program_exception_reaches_viewer (jscad : value) (code : program)
        (e : Js.error) (st : ViewerState) :
  code (require jscad) = Throw e
  \/ (exists sandbox,
        code (require jscad) = Return sandbox
        /\ selectMain sandbox = Return (VFunction (Throw e))) ->
  executeJSCAD jscad code = Throw e
  /\ loadModel jscad code st
     = {| geometry := None; error := Some (message_of e) |}.
Proof.
  intros H.
  assert (Hexec : executeJSCAD jscad code = Throw e).
  { unfold executeJSCAD.
    destruct H as [Hrun | (sandbox & Hrun & Hsel)]; rewrite Hrun; cbn [bind try_catch].
    - reflexivity.
    - now rewrite Hsel. }
  split; [exact Hexec|].
  exact (@loadModel_on_failure jscad code st e Hexec).
Qed.

(** [program_exception_reaches_viewer] at a program that requires ['fs']. *)
Lemma program_exception_reaches_viewer_witness :
  (requiresFs (require Samples.library) = Throw (ModuleNotFoundError "fs")
   \/ (exists sandbox,
         requiresFs (require Samples.library) = Return sandbox
         /\ selectMain sandbox = Return (VFunction (Throw (ModuleNotFoundError "fs")))))
  /\ executeJSCAD Samples.library requiresFs = Throw (ModuleNotFoundError "fs")
  /\ loadModel Samples.library requiresFs {| geometry := None; error := None |}
     = {| geometry := None; error := Some "Module fs not found" |}.
Proof.
  assert (H : requiresFs (require Samples.library) = Throw (ModuleNotFoundError "fs")
              \/ (exists sandbox,
                    requiresFs (require Samples.library) = Return sandbox
                    /\ selectMain sandbox
                       = Return (VFunction (Throw (ModuleNotFoundError "fs")))))
    by (left; reflexivity).
  split; [exact H|].
  exact (@program_exception_reaches_viewer Samples.library requiresFs
           (ModuleNotFoundError "fs") {| geometry := None; error := None |} H).
Defined.

(** X8: if the program leaves [module.exports] null or undefined, reading
    [module.exports.main] raises a [TypeError], which is what the executor
    fails with, whatever [exports.main] holds. *)
Theorem nullish_module_exports_is_a_type_error (jscad : value) (code : program)
        (sandbox : Sandbox) :
  code (require jscad) = Return sandbox ->
  module_exports sandbox = VNull \/ module_exports sandbox = VUndefined ->
  exists msg, executeJSCAD jscad code = Throw (TypeError msg).
Proof.
  intros Hrun Hnull. unfold executeJSCAD, selectMain. rewrite Hrun.
  cbn [bind]. destruct Hnull as [-> | ->]; cbn [get bind try_catch]; eauto.
Qed.

(** [nullish_module_exports_is_a_type_error] with a callable [exports.main]. *)
Lemma nullish_module_exports_is_a_type_error_witness :
  nulledExports [Samples.quad] (require Samples.library)
  = Return {| module_exports := VNull;
              exports := [("main", VFunction (Return (VGeom3 [Samples.quad])))] |}
  /\ (VNull = VNull \/ VNull = VUndefined)
  /\ exists msg,
      executeJSCAD Samples.library (nulledExports [Samples.quad])
      = Throw (TypeError msg).
Proof.
  split; [reflexivity|].
  assert (H : VNull = VNull \/ VNull = VUndefined) by (left; reflexivity).
  split; [exact H|].
  exact (@nullish_module_exports_is_a_type_error Samples.library
           (nulledExports [Samples.quad])
           {| module_exports := VNull;
              exports := [("main", VFunction (Return (VGeom3 [Samples.quad])))] |}
           eq_refl H).
Defined.

(* ------------------------------------------------------------------ *)
(** ** Paths under the root namespace *)

Section Paths.



(** A string that starts with a prefix is the prefix followed by a rest. *)
Lemma prefix_app (p s : string) :
  String.prefix p s = true -> exists rest, s = (p ++ rest)%string.
Proof.
  revert s. induction p as [|a p IH]; intros s H.
  - exists s. reflexivity.
  - destruct s as [|b s]; [discriminate|]. cbn [String.prefix] in H.
    destruct (Ascii.ascii_dec a b) as [<-|]; [|discriminate].
    destruct (IH s H) as [rest ->]. exists rest. reflexivity.
Qed.



End Paths.



(** X18: [require] resolves nothing outside the modelling library: when it
    returns a value, the identifier is the root name or starts with the
    root name and a slash. *)
Theorem require_resolves_only_under_root (jscad : value) (moduleName : string)
        (v : value) :
  require jscad moduleName = Return v ->
  moduleName = "@jscad/modeling"
  \/ exists path, moduleName = ("@jscad/modeling/" ++ path)%string.
Proof.
  unfold require.
  destruct (String.eqb_spec moduleName "@jscad/modeling") as [->|_];
    [intros _; now left|].
  destruct (startsWith moduleName "@jscad/modeling/") eqn:Hp; [|discriminate].
  intros _. right. now apply prefix_app.
Qed.

(** [require_resolves_only_under_root] at the sub-namespace primitives. *)
Lemma require_resolves_only_under_root_witness :
  require Samples.library "@jscad/modeling/primitives"
  = Return (VObject [("square", VFunction (Return (VGeom3 [Samples.quad])))])
  /\ ("@jscad/modeling/primitives" = "@jscad/modeling"
      \/ exists path, "@jscad/modeling/primitives" = ("@jscad/modeling/" ++ path)%string).
Proof.
  split; [reflexivity|].
  apply (@require_resolves_only_under_root Samples.library
           "@jscad/modeling/primitives"
           (VObject [("square", VFunction (Return (VGeom3 [Samples.quad])))])).
  reflexivity.
Defined.

(* ------------------------------------------------------------------ *)
(** ** What the viewer draws *)

Section Viewer.

(** The vertex count the viewer reads off a position array of whole
    triangles. *)
Lemma count_of_triangles (a : list float) (T : nat) :
  List.length a = 9 * T ->
  negb (Qle_bool (if Qeq_bool (count a) 0%Q then 0%Q else count a) 3000%Q)
  = (1000 <? T).
Proof.
  intros Hlen. rewrite count_is_zero.
  destruct (Nat.eqb_spec (List.length a) 0) as [H0|H0].
  - assert (T = 0) by lia. subst T. reflexivity.
  - unfold count. rewrite Hlen.
    destruct (Nat.ltb_spec 1000 T) as [H|H];
      unfold Qle_bool, Qdiv, Qmult, Qinv, inject_Z; cbn.
    + apply negb_true_iff, Z.leb_gt. lia.
    + apply negb_false_iff, Z.leb_le. lia.
Qed.

End Viewer.

(** X10: once a model's code has been loaded, what the viewer draws depends
    on the execution alone, not on what was shown before: the mesh when the
    execution succeeded, the red error box when it failed, except that a
    failure whose message is the empty string leaves the grey placeholder. *)
Theorem view_after_loading (jscad : value) (code : program) (st : ViewerState) :
  ModelViewer (Some code) (modelEffect jscad (Some code) st)
  = match executeJSCAD jscad code with
    | Return g => ModelMesh (Some g)
    | Throw e => if String.eqb (message_of e) "" then Placeholder else ErrorBox
    end.
Proof.
  unfold ModelViewer.ModelViewer, modelEffect, loadModel.
  destruct (executeJSCAD jscad code) as [g|e]; cbn [geometry error].
  - reflexivity.
  - now destruct (String.eqb (message_of e) "").
Qed.

(** X11: a converted geometry is drawn as a transparent wireframe at
    opacity 0.8 exactly when the solid it was compiled from has more than
    1000 triangles (more than 3000 vertices), and solid at opacity 1
    otherwise; the fallback cube, which stands for values without a single
    triangle, is always drawn solid. *)
Theorem wireframe_beyond_1000_triangles (solid : value) :
  ModelMesh (Some (convertToThreeGeometry solid))
  = Mesh (convertToThreeGeometry solid)
         (1000 <? trianglesOf solid) (1000 <? trianglesOf solid)
         (if 1000 <? trianglesOf solid then 0x1.999999999999ap-1%float else 1%float).
Proof.
  assert (Hw : negb (Qle_bool (positionCount (convertToThreeGeometry solid)) 3000%Q)
               = (1000 <? trianglesOf solid)).
  { unfold convertToThreeGeometry.
    destruct (compileMesh solid) as [m|e] eqn:Hm.
    - destruct (compileMesh_Return_solid _ Hm) as [polygons ->].
      rewrite compileMesh_cases in Hm.
      destruct (triangleTotal polygons =? 0); [discriminate|].
      assert (Em : m = {| position := Some (Float32Array (solidPositions polygons));
                          normal := Some (Float32Array
                                            (flat_map flatTriangle
                                                      (solidTriangleNormals polygons)));
                          index := Some (seq 0 (3 * triangleTotal polygons)) |})
        by congruence.
      clear Hm. subst m. unfold positionCount. cbn [position trianglesOf].
      apply count_of_triangles.
      unfold Float32Array. now rewrite length_map, solidPositions_length.
    - assert (H0 : trianglesOf solid = 0).
      { destruct solid as [| | | | | | |polygons]; try reflexivity.
        cbn [trianglesOf]. rewrite compileMesh_cases in Hm.
        destruct (Nat.eqb_spec (triangleTotal polygons) 0); [assumption|discriminate]. }
      rewrite H0. vm_compute. reflexivity. }
  unfold ModelMesh. cbv zeta. now rewrite Hw.
Qed.

(* ------------------------------------------------------------------ *)
(** ** The provider configuration and its display *)

Section Provider.

Import LlmService ProviderStatus.

Lemma orDefault_not_empty (v : option string) (fallback : string) :
  fallback <> "" -> orDefault v fallback <> "".
Proof.
  intros Hf. unfold orDefault. destruct v as [s|]; [|exact Hf].
  destruct (String.eqb_spec s ""); assumption.
Qed.

Lemma orDefault_Some (v : option string) (fallback s : string) :
  s <> fallback -> orDefault v fallback = s -> v = Some s.
Proof.
  unfold orDefault. intros Hs H. destruct v as [t|]; [|congruence].
  destruct (String.eqb_spec t ""); congruence.
Qed.

Lemma getModel_not_empty (env : ImportMetaEnv) (p : string) :
  getModel env p <> "".
Proof.
  unfold getModel.
  destruct (String.eqb p "openai"); [apply orDefault_not_empty; discriminate|].
  destruct (String.eqb p "anthropic"); [apply orDefault_not_empty; discriminate|].
  destruct (String.eqb p "google"); [apply orDefault_not_empty; discriminate|].
  discriminate.
Qed.

Lemma present_Some (v : option string) :
  present v = true <-> exists key, key <> "" /\ v = Some key.
Proof.
  unfold present. destruct v as [s|].
  - destruct (String.eqb_spec s "") as [->|Hs]; cbn.
    + split; [discriminate|]. intros (key & Hk & E). congruence.
    + split; [eauto|reflexivity].
  - split; [discriminate|]. intros (key & _ & E). discriminate.
Qed.

End Provider.

(** X12: the status line reads "Connected" exactly when the provider
    variable names one of the three remote providers and that provider's
    key variable holds a non-empty string. *)
Theorem connected_means_configured_key (env : LlmService.ImportMetaEnv) :
  ProviderStatus.getStatusText
    (LlmService.info_provider (LlmService.getProviderInfo (LlmService.newLLMService env)))
    (LlmService.hasApiKey (LlmService.getProviderInfo (LlmService.newLLMService env)))
  = "Connected"
  <-> exists key,
      key <> ""
      /\ ((LlmService.VITE_LLM_PROVIDER env = Some "openai"
           /\ LlmService.VITE_OPENAI_API_KEY env = Some key)
          \/ (LlmService.VITE_LLM_PROVIDER env = Some "anthropic"
              /\ LlmService.VITE_ANTHROPIC_API_KEY env = Some key)
          \/ (LlmService.VITE_LLM_PROVIDER env = Some "google"
              /\ LlmService.VITE_GOOGLE_API_KEY env = Some key)).
Proof.
  unfold LlmService.getProviderInfo, LlmService.newLLMService,
    ProviderStatus.getStatusText, LlmService.getApiKey.
  cbn [LlmService.info_provider LlmService.hasApiKey LlmService.provider
       LlmService.apiKey].
  set (p := LlmService.orDefault (LlmService.VITE_LLM_PROVIDER env) "simulation").
  assert (Hp : forall s, s <> "simulation" -> p = s ->
                         LlmService.VITE_LLM_PROVIDER env = Some s)
    by (intros s Hs; apply orDefault_Some; exact Hs).
  assert (Hq : forall s, LlmService.VITE_LLM_PROVIDER env = Some s -> s <> "" -> p = s).
  { intros s E Hs. unfold p, LlmService.orDefault. rewrite E.
    now destruct (String.eqb_spec s ""). }
  destruct (String.eqb_spec p "simulation") as [Hsim|Hsim].
  { cbv iota. split; [discriminate|].
    intros (key & _ & [[E _]|[[E _]|[E _]]]);
      apply Hq in E; try discriminate; congruence. }
  rewrite orb_false_r.
  destruct (String.eqb_spec p "openai") as [Ho|Ho].
  { destruct (LlmService.present (LlmService.VITE_OPENAI_API_KEY env)) eqn:Hk.
    - split; [intros _|reflexivity].
      apply present_Some in Hk as (key & Hne & E).
      exists key. split; [exact Hne|]. left. split; [apply Hp; [discriminate|exact Ho] | exact E].
    - split; [discriminate|].
      intros (key & Hne & [[E K]|[[E _]|[E _]]]).
      + assert (LlmService.present (LlmService.VITE_OPENAI_API_KEY env) = true)
          by (apply present_Some; eauto).
        congruence.
      + apply Hq in E; [congruence | discriminate].
      + apply Hq in E; [congruence | discriminate]. }
  destruct (String.eqb_spec p "anthropic") as [Ha|Ha].
  { destruct (LlmService.present (LlmService.VITE_ANTHROPIC_API_KEY env)) eqn:Hk.
    - split; [intros _|reflexivity].
      apply present_Some in Hk as (key & Hne & E).
      exists key. split; [exact Hne|]. right. left.
      split; [apply Hp; [discriminate|exact Ha] | exact E].
    - split; [discriminate|].
      intros (key & Hne & [[E _]|[[E K]|[E _]]]).
      + apply Hq in E; [congruence | discriminate].
      + assert (LlmService.present (LlmService.VITE_ANTHROPIC_API_KEY env) = true)
          by (apply present_Some; eauto).
        congruence.
      + apply Hq in E; [congruence | discriminate]. }
  destruct (String.eqb_spec p "google") as [Hg|Hg].
  { destruct (LlmService.present (LlmService.VITE_GOOGLE_API_KEY env)) eqn:Hk.
    - split; [intros _|reflexivity].
      apply present_Some in Hk as (key & Hne & E).
      exists key. split; [exact Hne|]. right. right.
      split; [apply Hp; [discriminate|exact Hg] | exact E].
    - split; [discriminate|].
      intros (key & Hne & [[E _]|[[E _]|[E K]]]).
      + apply Hq in E; [congruence | discriminate].
      + apply Hq in E; [congruence | discriminate].
      + assert (LlmService.present (LlmService.VITE_GOOGLE_API_KEY env) = true)
          by (apply present_Some; eauto).
        congruence. }
  cbn [LlmService.present orb]. split; [discriminate|].
  intros (key & _ & [[E _]|[[E _]|[E _]]]);
    apply Hq in E; try discriminate; congruence.
Qed.

(** X13: the model name shown is the one the constructor chose, a
    configured model variable or the provider's default: it is never empty,
    so the "unknown" fallback of [getProviderInfo] is never taken. *)
Theorem shown_model_is_configured (env : LlmService.ImportMetaEnv) :
  LlmService.info_model (LlmService.getProviderInfo (LlmService.newLLMService env))
  = LlmService.getModel env
      (LlmService.orDefault (LlmService.VITE_LLM_PROVIDER env) "simulation")
  /\ LlmService.info_model (LlmService.getProviderInfo (LlmService.newLLMService env))
     <> "".
Proof.
  unfold LlmService.getProviderInfo, LlmService.newLLMService.
  cbn [LlmService.info_model LlmService.model].
  set (m := LlmService.getModel env _).
  assert (Hm : m <> "") by apply getModel_not_empty.
  unfold LlmService.orDefault.
  destruct (String.eqb_spec m ""); [contradiction|]. now split.
Qed.

(* ------------------------------------------------------------------ *)
(** ** Falling back to the simulation *)

Section Fallback.

Import LlmService.

Variable trim : string -> string.
Variable toLowerCase : string -> string.
Variable fetchCompletion : string -> LLMConfig -> string -> result string.
Variable simulateResponse : string -> result LLMResponse.

Lemma try_same {A : Type} (r : result A) : try_catch r (fun _ => r) = r.
Proof. now destruct r. Qed.

Lemma callProvider_fails (name label : string) (config : LLMConfig) (prompt : string) :
  present (apiKey config) = false
  \/ (exists e, fetchCompletion name config prompt = Throw e) ->
  exists e,
    callProvider trim toLowerCase fetchCompletion name label config prompt = Throw e.
Proof.
  unfold callProvider. intros [Hkey | (e & Hfetch)].
  - rewrite Hkey. cbn. eauto.
  - destruct (present (apiKey config)); cbn; [|eauto].
    rewrite Hfetch. cbn. eauto.
Qed.

End Fallback.

(** X14: when the configuration has no API key (none, or the empty
    string), or when every request fails, [generateModel] answers with the
    simulation's response for the prompt: the missing-key and network
    errors are never passed on to the caller. *)
Theorem generateModel_falls_back_to_simulation
        (trim toLowerCase : string -> string)
        (fetchCompletion : string -> LlmService.LLMConfig -> string -> result string)
        (simulateResponse : string -> result LlmService.LLMResponse)
        (config : LlmService.LLMConfig) (prompt : string) :
  LlmService.present (LlmService.apiKey config) = false
  \/ (forall name, exists e, fetchCompletion name config prompt = Throw e) ->
  LlmService.generateModel trim toLowerCase fetchCompletion simulateResponse
                           config prompt
  = simulateResponse prompt.
Proof.
  intros H.
  unfold LlmService.generateModel, LlmService.callOpenAI,
    LlmService.callAnthropic, LlmService.callGoogle.
  assert (Hcall : forall name label, exists e,
             LlmService.callProvider trim toLowerCase fetchCompletion
                                     name label config prompt
             = Throw e).
  { intros name label. apply callProvider_fails.
    destruct H as [Hkey|Hnet]; [left; exact Hkey | right; apply Hnet]. }
  destruct (String.eqb (LlmService.provider config) "openai").
  { destruct (Hcall "openai" "OpenAI") as [e ->]. reflexivity. }
  destruct (String.eqb (LlmService.provider config) "anthropic").
  { destruct (Hcall "anthropic" "Anthropic") as [e ->]. reflexivity. }
  destruct (String.eqb (LlmService.provider config) "google").
  { destruct (Hcall "google" "Google") as [e ->]. reflexivity. }
  apply try_same.
Qed.

(** [generateModel_falls_back_to_simulation] at the provider openai without
    a key, with a network that would answer. *)
Lemma generateModel_falls_back_to_simulation_witness :
  (LlmService.present (LlmService.apiKey (LlmService.newLLMService keylessOpenAI)) = false
   \/ (forall name, exists e,
          answeringNetwork name
            (LlmService.newLLMService keylessOpenAI) "a cube"
          = Throw e))
  /\ LlmService.generateModel
       noTrim noTrim
       answeringNetwork
       echoSimulation
       (LlmService.newLLMService keylessOpenAI) "a cube"
     = Return {| LlmService.code := "a cube"; LlmService.explanation := None |}.
Proof.
  assert (H : LlmService.present
                (LlmService.apiKey (LlmService.newLLMService keylessOpenAI)) = false
              \/ (forall name, exists e,
                     answeringNetwork name
                       (LlmService.newLLMService keylessOpenAI) "a cube"
                     = Throw e))
    by (left; reflexivity).
  split; [exact H|].
  exact (@generateModel_falls_back_to_simulation
           noTrim noTrim
           answeringNetwork
           echoSimulation
           (LlmService.newLLMService keylessOpenAI) "a cube" H).
Defined.

(** X15: a provider variable naming none of openai, anthropic, google and
    simulation is accepted as it is: the status display then shows the name
    "Simulation" together with "API Key Missing" and the settings icon, the
    model is "simulation", and every prompt is answered by the simulation. *)
Theorem unrecognised_provider_simulates
        (trim toLowerCase : string -> string)
        (fetchCompletion : string -> LlmService.LLMConfig -> string -> result string)
        (simulateResponse : string -> result LlmService.LLMResponse)
        (env : LlmService.ImportMetaEnv) (p prompt : string) :
  LlmService.VITE_LLM_PROVIDER env = Some p ->
  p <> "" -> p <> "openai" -> p <> "anthropic" -> p <> "google" ->
  p <> "simulation" ->
  LlmService.getProviderInfo (LlmService.newLLMService env)
  = {| LlmService.info_provider := p;
       LlmService.hasApiKey := false;
       LlmService.info_model := "simulation" |}
  /\ ProviderStatus.getProviderName p = "Simulation"
  /\ ProviderStatus.getStatusText p false = "API Key Missing"
  /\ ProviderStatus.showsSettings p false = true
  /\ LlmService.generateModel trim toLowerCase fetchCompletion simulateResponse
                              (LlmService.newLLMService env) prompt
     = simulateResponse prompt.
Proof.
  intros Hp Hne Ho Ha Hg Hs.
  apply String.eqb_neq in Hne, Ho, Ha, Hg, Hs.
  assert (Hprov : LlmService.orDefault (LlmService.VITE_LLM_PROVIDER env) "simulation" = p)
    by (unfold LlmService.orDefault; now rewrite Hp, Hne).
  assert (Hconfig : LlmService.newLLMService env
                    = {| LlmService.provider := p;
                         LlmService.apiKey := None;
                         LlmService.model := Some "simulation" |}).
  { unfold LlmService.newLLMService. cbv zeta. rewrite Hprov.
    unfold LlmService.getApiKey, LlmService.getModel. now rewrite Ho, Ha, Hg. }
  rewrite Hconfig.
  unfold LlmService.getProviderInfo, LlmService.generateModel,
    ProviderStatus.getProviderName, ProviderStatus.getStatusText,
    ProviderStatus.showsSettings.
  cbn [LlmService.provider LlmService.apiKey LlmService.model
       LlmService.present LlmService.orDefault orb negb andb].
  rewrite Ho, Ha, Hg, Hs. cbn [negb andb String.eqb].
  repeat split. apply try_same.
Qed.

(** [unrecognised_provider_simulates] at the provider name mistral. *)
Lemma unrecognised_provider_simulates_witness :
  LlmService.VITE_LLM_PROVIDER mistralEnv = Some "mistral"
  /\ "mistral" <> "" /\ "mistral" <> "openai" /\ "mistral" <> "anthropic"
  /\ "mistral" <> "google" /\ "mistral" <> "simulation"
  /\ ProviderStatus.getStatusText "mistral" false = "API Key Missing".
Proof.
  assert (H1 : LlmService.VITE_LLM_PROVIDER mistralEnv = Some "mistral") by reflexivity.
  assert (H2 : "mistral" <> "") by discriminate.
  assert (H3 : "mistral" <> "openai") by discriminate.
  assert (H4 : "mistral" <> "anthropic") by discriminate.
  assert (H5 : "mistral" <> "google") by discriminate.
  assert (H6 : "mistral" <> "simulation") by discriminate.
  repeat (split; [assumption|]).
  exact (proj1 (proj2 (proj2
           (@unrecognised_provider_simulates
              noTrim noTrim answeringNetwork
              echoSimulation
              mistralEnv "mistral" "a cube" H1 H2 H3 H4 H5 H6)))).
Defined.

(* ------------------------------------------------------------------ *)
(** ** Code fences and the export line *)

Section Fences.

Import LlmService.

Lemma fence_ticks (s : string) :
  hasPrefix "```" s = true <-> 3 <= ticks s.
Proof.
  destruct s as [|c1 [|c2 [|c3 s]]]; cbn [hasPrefix ticks];
    repeat match goal with
           | |- context [Ascii.eqb "`" ?c] =>
               destruct (Ascii.eqb "`" c); cbn [andb]
           end;
    split; intros H; (reflexivity || discriminate || lia).
Qed.

Lemma no_fence_ticks (s : string) :
  hasPrefix "```" s = false <-> ticks s <= 2.
Proof.
  destruct (hasPrefix "```" s) eqn:H.
  - apply fence_ticks in H. split; [discriminate | lia].
  - split; [intros _|reflexivity].
    destruct (Nat.le_gt_cases (ticks s) 2) as [|Hgt]; [assumption|].
    apply fence_ticks in Hgt. congruence.
Qed.

(** A fence is matched with a positive length exactly where the text reads
    three backticks. *)
Lemma fenceLength_cases (withLanguage : bool) (s : string) :
  (hasPrefix "```" s = true /\ exists n, fenceLength withLanguage s = Some (S n))
  \/ (hasPrefix "```" s = false /\ fenceLength withLanguage s = None).
Proof.
  unfold fenceLength. destruct (hasPrefix "```" s).
  - left. split; [reflexivity|]. cbn [Nat.add]. eauto.
  - right. now split.
Qed.

(** Where fewer than three backticks lead, the replacement does not add
    any. *)
Lemma removeAll_ticks (withLanguage : bool) (s : string) :
  ticks s <= 2 ->
  ticks (removeAll (fenceLength withLanguage) 0 s) <= ticks s.
Proof.
  induction s as [|c s IH]; intros Ht; [reflexivity|].
  cbn [removeAll].
  destruct (fenceLength_cases withLanguage (String c s)) as [[Hp _]|[_ ->]].
  - apply fence_ticks in Hp. lia.
  - cbn [ticks] in *. destruct (Ascii.eqb "`" c); [|lia].
    apply le_n_S, IH. lia.
Qed.

(** After the replacement no fence is left. *)
Lemma removeAll_no_fence (withLanguage : bool) (s : string) :
  forall skip : nat,
    includes (removeAll (fenceLength withLanguage) skip s) "```" = false.
Proof.
  induction s as [|c s IH]; intros skip; [reflexivity|].
  cbn [removeAll]. destruct skip as [|skip]; [|apply IH].
  destruct (fenceLength_cases withLanguage (String c s)) as [[_ [n ->]]|[Hp ->]];
    [apply IH|].
  cbn [includes]. rewrite IH, orb_false_r.
  apply no_fence_ticks. apply no_fence_ticks in Hp. cbn [ticks] in *.
  destruct (Ascii.eqb "`" c); [|lia].
  apply le_n_S. etransitivity; [apply removeAll_ticks|]; lia.
Qed.

(** A text without a fence is left as it is. *)
Lemma removeAll_without_fence (withLanguage : bool) (s : string) :
  includes s "```" = false -> removeAll (fenceLength withLanguage) 0 s = s.
Proof.
  induction s as [|c s IH]; intros H; [reflexivity|].
  cbn [includes] in H. apply orb_false_iff in H as [Hp Hs].
  cbn [removeAll].
  destruct (fenceLength_cases withLanguage (String c s)) as [[Hq _]|[_ ->]];
    [congruence|].
  now rewrite (IH Hs).
Qed.

Lemma includes_app_r (a b pattern : string) :
  includes b pattern = true -> includes (a ++ b) pattern = true.
Proof.
  intros Hb. induction a as [|c a IH]; [exact Hb|].
  cbn [append includes]. rewrite IH. apply orb_true_r.
Qed.

End Fences.

(** X16: the first replacement of [extractCode] removes every code fence:
    no three backticks in a row are left in its result, whatever the
    response, so the second replacement never changes anything and the
    extracted code is the trimmed result of the first, with the export line
    added where the rule asks for it. *)
Theorem fences_are_stripped_at_once (trim : string -> string) (response : string) :
  LlmService.includes (LlmService.stripFences response) "```" = false
  /\ LlmService.removeAll (LlmService.fenceLength false) 0
                          (LlmService.stripFences response)
     = LlmService.stripFences response
  /\ (LlmService.extractCode trim response
      = trim (LlmService.stripFences response)
      \/ LlmService.extractCode trim response
         = (trim (LlmService.stripFences response)
            ++ LlmService.lf ++ LlmService.lf ++ "module.exports = { main }")%string).
Proof.
  assert (Hclean : LlmService.includes (LlmService.stripFences response) "```" = false)
    by apply removeAll_no_fence.
  assert (Hsame : LlmService.removeAll (LlmService.fenceLength false) 0
                                       (LlmService.stripFences response)
                  = LlmService.stripFences response)
    by (apply removeAll_without_fence; exact Hclean).
  split; [exact Hclean|]. split; [exact Hsame|].
  unfold LlmService.extractCode. rewrite Hsame. cbv zeta.
  destruct (negb _); [|now left].
  destruct (orb _ _); [now right | now left].
Qed.

(** X17: whenever the extracted code defines [main], as [const main = ] or
    as [function main(], it also mentions [module.exports]: a response that
    defines the entry point without exporting it gets the export line. *)
Theorem extracted_main_is_exported (trim : string -> string) (response : string) :
  LlmService.includes (LlmService.extractCode trim response) "const main = " = true
  \/ LlmService.includes (LlmService.extractCode trim response) "function main(" = true ->
  LlmService.includes (LlmService.extractCode trim response) "module.exports" = true.
Proof.
  unfold LlmService.extractCode. cbv zeta.
  set (code := trim _).
  destruct (LlmService.includes code "module.exports") eqn:Hexp; cbn [negb].
  - intros _. exact Hexp.
  - destruct (LlmService.includes code "const main = ") eqn:Hconst;
      destruct (LlmService.includes code "function main(") eqn:Hfun; cbn [orb];
      try (intros _; apply includes_app_r; reflexivity).
    intros [H|H]; congruence.
Qed.

(** [extracted_main_is_exported] at a fenced response that defines [main]
    and exports nothing. *)
Lemma extracted_main_is_exported_witness :
  (LlmService.includes (LlmService.extractCode noTrim fencedMain) "const main = " = true
   \/ LlmService.includes (LlmService.extractCode noTrim fencedMain) "function main(" = true)
  /\ LlmService.includes (LlmService.extractCode noTrim fencedMain) "module.exports" = true.
Proof.
  assert (H : LlmService.includes (LlmService.extractCode noTrim fencedMain)
                                  "const main = " = true
              \/ LlmService.includes (LlmService.extractCode noTrim fencedMain)
                                     "function main(" = true)
    by (left; reflexivity).
  split; [exact H|].
  exact (@extracted_main_is_exported noTrim fencedMain H).
Defined.

(* ------------------------------------------------------------------ *)
(** ** When the fallback cube is returned *)

(** X19: [convertToThreeGeometry] returns the fallback cube exactly for the
    values without a triangle: anything that is not a solid, and solids
    whose polygons all have fewer than three points. A solid with a
    triangle always gets its own compiled mesh. *)
Theorem fallback_exactly_without_triangles (solid : value) :
  convertToThreeGeometry solid = createFallbackGeometry
  <-> trianglesOf solid = 0.
Proof.
  unfold convertToThreeGeometry. split.
  - intros H. destruct solid as [| | | | | | |polygons]; try reflexivity.
    cbn [trianglesOf]. rewrite compileMesh_cases in H.
    destruct (Nat.eqb_spec (triangleTotal polygons) 0) as [|HT]; [assumption|].
    apply (f_equal index) in H. vm_compute in H. discriminate H.
  - intros H. destruct solid as [| | | | | | |polygons]; try reflexivity.
    cbn [trianglesOf] in H. now rewrite compileMesh_cases, H.
Qed.
